(** * work-tip: the tip page component [TipContent]

    A shallow embedding of [src/app/tip/components/tip-content.tsx]:
    the derived values of one render, the affordability predicate
    [hasBalance], the [disabled] flag of the submit button, and the two
    asynchronous handlers [fetchTokenBalance] and [onSubmit], written as
    trees of effects that suspend at every [await]. *)

From Stdlib Require Import ZArith List String Bool Lia.
From Stdlib Require Import Floats.SpecFloat.
From Stdlib Require Import DecimalString.
Import ListNotations.
Local Open Scope string_scope.
Local Open Scope list_scope.

(** ** JavaScript values

    Numbers are IEEE 754 binary64 values, as [spec_float]; the relational
    operators answer [false] whenever an operand is NaN. *)

Definition number : Type := spec_float.

Definition NaN : number := S754_nan.
Definition zero : number := S754_zero false.

(** [a > b] *)
Definition js_gt (a b : number) : bool := SFltb b a.

(** [a <= b] *)
Definition js_le (a b : number) : bool := SFleb a b.

Definition is_nan (x : number) : bool :=
  match x with S754_nan => true | _ => false end.

(** The values that reach [Number(...)], [||] and [!] in the component. *)
Inductive value : Type :=
| undefined
| null
| num (x : number)
| str (s : string).

Definition ToBoolean (v : value) : bool :=
  match v with
  | undefined | null => false
  | num (S754_zero _) | num S754_nan => false
  | num _ => true
  | str s => negb (s =? EmptyString)
  end.

(** [a || b] *)
Definition js_or (a b : value) : value := if ToBoolean a then a else b.

(** [x || d] at type number *)
Definition or_number (x d : number) : number :=
  if ToBoolean (num x) then x else d.

(** [s || d] for [s : string | undefined] *)
Definition or_string (s : option string) (d : option string) : option string :=
  match s with
  | Some t => if t =? EmptyString then d else Some t
  | None => d
  end.

(** A thrown value; only its presence matters to the component. *)
Definition Exn : Type := string.

(** ** What the component takes from its platform

    The string-to-number conversion of [Number], the transaction codec of
    [@solana/web3.js] and the build-time environment are not code of this
    repository; the component is embedded over them. *)
Class Platform : Type := {
  (** [Number(s)] for a string [s] *)
  StringToNumber : string -> number;
  Transaction : Type;
  (** [Transaction.from(Buffer.from(s, "base64"))] *)
  Transaction_from_base64 : string -> Exn + Transaction;
  (** [tx.serialize().toString("base64")] *)
  serialize_base64 : Transaction -> Exn + string;
  (** [process.env.NEXT_PUBLIC_USDC_MINT_ADDRESS] *)
  NEXT_PUBLIC_USDC_MINT_ADDRESS : option string
}.

(** ** Data model *)

Record TokenBalance : Type := {
  tb_mint : string;
  tb_amount : option number;   (* [uiAmount] is [number | null] *)
  tb_decimals : number
}.

Record PublicKey : Type := { toBase58 : string }.
Record Connection : Type := { rpcEndpoint : string }.

(** The wallet's [signTransaction] function, when the wallet has one. *)
Inductive Signer : Type := walletSigner.

(** One entry of [accounts.value]: [account.data.parsed.info]. *)
Record ParsedInfo : Type := {
  info_mint : string;
  info_uiAmount : option number;
  info_decimals : number
}.

(** What one render of the component closes over. *)
Record Render : Type := {
  searchParams : list (string * string);
  receiverVault : option string;
  connection : option Connection;
  publicKey : option PublicKey;
  connected : bool;
  signTransaction : option Signer
}.

(** The state that outlives a render: three [useState] cells and the
    [useRef] cell [isFetchingRef]. *)
Record Store : Type := {
  tokenBalance : option TokenBalance;
  loading : bool;
  error : option string;
  isFetchingRef : bool
}.

Definition initialStore : Store :=
  {| tokenBalance := None; loading := false; error := None;
     isFetchingRef := false |}.

(** [searchParams.get(name)] *)
Fixpoint get (sp : list (string * string)) (name : string) : value :=
  match sp with
  | [] => null
  | (k, v) :: rest => if k =? name then str v else get rest name
  end.

Definition of_option_string (s : option string) : value :=
  match s with Some t => str t | None => null end.

Definition of_option_number (x : option number) : value :=
  match x with Some n => num n | None => null end.

Section Component.
Context {P : Platform}.

Definition Number (v : value) : number :=
  match v with
  | undefined => NaN
  | null => zero
  | num x => x
  | str s => StringToNumber s
  end.

Definition mintAddress : string :=
  match or_string NEXT_PUBLIC_USDC_MINT_ADDRESS (Some EmptyString) with
  | Some s => s
  | None => EmptyString
  end.

Definition amount (r : Render) : number :=
  Number (js_or (get (searchParams r) "amount") (num zero)).

Definition receiverUsername (r : Render) : value :=
  get (searchParams r) "receiver_username".

Definition receiverDiscordId (r : Render) : value :=
  get (searchParams r) "receiver_user_id".

(** [Number(tokenBalance?.amount) || 0] *)
Definition balanceAmount (s : Store) : number :=
  or_number
    (Number (match tokenBalance s with
             | Some tb => of_option_number (tb_amount tb)
             | None => undefined
             end))
    zero.

Definition hasBalance (r : Render) (s : Store) : bool :=
  if js_gt (amount r) (balanceAmount s) then false else true.

(** The [disabled] attribute of the submit button. *)
Definition disabled (r : Render) (s : Store) : bool :=
  negb (negb (ToBoolean (of_option_string (error s))))
  || loading s
  || negb (hasBalance r s).

(** ** Requests and responses of the backend actions *)

Record TokenSpec : Type := {
  token_mintAddress : string;
  token_amount : number
}.

Record DepositRequest : Type := {
  payer : string;
  deposit_vaultId : option string;
  strategy : string;
  network : string;
  deposit_amount : number;
  token : TokenSpec
}.

Record DepositResponse : Type := {
  serializedTransaction : string;
  vaultId : string;
  transactionId : string
}.

Record ExecuteRequest : Type := {
  execute_vaultId : string;
  execute_transactionId : string;
  signedTransaction : string
}.

Record ExecuteResponse : Type := { txHash : string }.

Record DepositInDatabaseRequest : Type := {
  db_amount : number;
  db_vaultId : string;
  discordUserId : value
}.

(** The body of the success toast, as the JSX renders it. *)
Record ToastBody : Type := {
  toast_title : string;
  toast_text : string;
  toast_href : string;
  toast_link : string;
  toast_duration : Z
}.

(** ** Effects *)

(** What a handler does between two suspension points. *)
Inductive Action : Type :=
| setTokenBalance (tb : option TokenBalance)
| setLoading (b : bool)
| setError (e : option string)
| setIsFetching (b : bool)
| console_log (msg : string)
| console_error (e : Exn)
| toast (body : ToastBody)
| toast_error (msg : string).

(** The awaited collaborators, indexed by what they resolve to. *)
Inductive Call : Type -> Type :=
| getParsedTokenAccountsByOwner
    (c : Connection) (owner : PublicKey) (programId : string)
  : Call (list ParsedInfo)
| deposit (req : DepositRequest) : Call DepositResponse
| wallet_signTransaction (tx : Transaction) : Call Transaction
| execute (req : ExecuteRequest) : Call ExecuteResponse
| depositInDatabase (req : DepositInDatabaseRequest) : Call unit.

Inductive Outcome (R : Type) : Type :=
| Resolved (r : R)
| Rejected (e : Exn).
Arguments Resolved {R} r.
Arguments Rejected {R} e.

(** An asynchronous function: a tree of effects, finite because the
    handlers have no loop. *)
Inductive Prog (A : Type) : Type :=
| Ret (a : A)
| Throw (e : Exn)
| ReadRef (k : bool -> Prog A)
| Do (a : Action) (k : Prog A)
| Await (R : Type) (c : Call R) (k : Outcome R -> Prog A).
Arguments Ret {A} a.
Arguments Throw {A} e.
Arguments ReadRef {A} k.
Arguments Do {A} a k.
Arguments Await {A R} c k.

Fixpoint bind {A B : Type} (p : Prog A) (f : A -> Prog B) : Prog B :=
  match p with
  | Ret a => f a
  | Throw e => Throw e
  | ReadRef k => ReadRef (fun b => bind (k b) f)
  | Do a k => Do a (bind k f)
  | Await c k => Await c (fun o => bind (k o) f)
  end.

(** [try { p } catch (e) { h e }] *)
Fixpoint try_catch {A : Type} (p : Prog A) (h : Exn -> Prog A) : Prog A :=
  match p with
  | Ret a => Ret a
  | Throw e => h e
  | ReadRef k => ReadRef (fun b => try_catch (k b) h)
  | Do a k => Do a (try_catch k h)
  | Await c k => Await c (fun o => try_catch (k o) h)
  end.

(** [try { p } finally { f }] *)
Fixpoint try_finally {A : Type} (p : Prog A) (f : Prog unit) : Prog A :=
  match p with
  | Ret a => bind f (fun _ => Ret a)
  | Throw e => bind f (fun _ => Throw e)
  | ReadRef k => ReadRef (fun b => try_finally (k b) f)
  | Do a k => Do a (try_finally k f)
  | Await c k => Await c (fun o => try_finally (k o) f)
  end.

Definition act (a : Action) : Prog unit := Do a (Ret tt).

Definition settled {R : Type} (o : Outcome R) : Prog R :=
  match o with
  | Resolved r => Ret r
  | Rejected e => Throw e
  end.

(** [await c]: a rejection is thrown where the value is awaited. *)
Definition await {R : Type} (c : Call R) : Prog R := Await c settled.

(** A synchronous library call that may throw. *)
Definition lift {A : Type} (x : Exn + A) : Prog A :=
  match x with
  | inl e => Throw e
  | inr a => Ret a
  end.

Declare Scope prog_scope.
Delimit Scope prog_scope with prog.
Notation "x <- p ;; q" := (bind p (fun x => q))
  (at level 61, p at next level, right associativity) : prog_scope.
Notation "p ;; q" := (bind p (fun _ => q))
  (at level 61, right associativity) : prog_scope.
Local Open Scope prog_scope.

(** ** The balance loader *)

Definition TOKEN_PROGRAM_ID : string :=
  "TokenkegQfeZyiNwAJbNbGKPFXCWuBvf9Ss623VQ5DA".

Definition token_not_found : string := "Required token not found in wallet.".
Definition fetch_failed : string := "Error fetching token balance".

(** Lines 60-74: pick the account of the configured mint and store it. *)
Definition storeBalance (accounts : list ParsedInfo) : Prog unit :=
  match find (fun account => info_mint account =? mintAddress) accounts with
  | Some parsedInfo =>
      act (setTokenBalance
             (Some {| tb_mint := info_mint parsedInfo;
                      tb_amount := info_uiAmount parsedInfo;
                      tb_decimals := info_decimals parsedInfo |}))
  | None =>
      act (setTokenBalance None) ;;
      act (setError (Some token_not_found))
  end.

(** Lines 49-74: the [try] block. *)
Definition fetch_try (c : Connection) (owner : PublicKey) : Prog unit :=
  act (setIsFetching true) ;;
  act (setLoading true) ;;
  act (setError None) ;;
  accounts <- await (getParsedTokenAccountsByOwner c owner TOKEN_PROGRAM_ID) ;;
  storeBalance accounts.

(** Lines 75-77: the [catch] block. *)
Definition fetch_catch (err : Exn) : Prog unit :=
  act (console_error err) ;;
  act (setError (Some fetch_failed)).

(** Lines 78-81: the [finally] block. *)
Definition fetch_finally : Prog unit :=
  act (setIsFetching false) ;;
  act (setLoading false).

Definition is_some {A : Type} (x : option A) : bool :=
  match x with Some _ => true | None => false end.

(** Line 46: the guard, read with the flag's current value. *)
Definition fetch_guard (r : Render) (fetching : bool) : bool :=
  fetching || negb (is_some (publicKey r)) || negb (connected r)
  || negb (is_some (connection r)).

Definition fetchTokenBalance (r : Render) : Prog unit :=
  ReadRef (fun fetching =>
    if fetch_guard r fetching then Ret tt
    else
      match publicKey r, connection r with
      | Some owner, Some c =>
          try_finally (try_catch (fetch_try c owner) fetch_catch)
                      fetch_finally
      | _, _ => Ret tt
      end).

(** ** The submit handler *)

Definition connect_wallet_msg : string := "Please connect your wallet.".
Definition receiver_required_msg : string := "Receiver Id is required.".
Definition submit_failed : string :=
  "An error occurred on transaction. Try again.".

(** How JSX renders a string-or-null child. *)
Definition jsx_text (v : value) : string :=
  match v with str s => s | _ => EmptyString end.

Definition depositRequest (r : Render) (pk : PublicKey) : DepositRequest :=
  {| payer := toBase58 pk;
     deposit_vaultId := or_string (receiverVault r) None;
     strategy := "blockhash";
     network := "mainnet";
     deposit_amount := amount r;
     token := {| token_mintAddress := mintAddress;
                 token_amount := amount r |} |}.

Definition executeRequest (depositRes : DepositResponse) (signed : string)
  : ExecuteRequest :=
  {| execute_vaultId := vaultId depositRes;
     execute_transactionId := transactionId depositRes;
     signedTransaction := signed |}.

Definition databaseRequest (r : Render) (depositRes : DepositResponse)
  : DepositInDatabaseRequest :=
  {| db_amount := amount r;
     db_vaultId := vaultId depositRes;
     discordUserId := receiverDiscordId r |}.

Definition successToast (r : Render) (res : ExecuteResponse) : ToastBody :=
  {| toast_title := "Transaction Confirmed";
     toast_text :=
       ("Successfully tipped @" ++ jsx_text (receiverUsername r))%string;
     toast_href := ("https://solscan.io/tx/" ++ txHash res)%string;
     toast_link := "View transaction";
     toast_duration := 10000 |}.

(** Lines 95-140: the [try] block. *)
Definition submit_try (r : Render) (pk : PublicKey) : Prog unit :=
  act (setLoading true) ;;
  depositRes <- await (deposit (depositRequest r pk)) ;;
  transaction <- lift (Transaction_from_base64
                         (serializedTransaction depositRes)) ;;
  signedTx <- await (wallet_signTransaction transaction) ;;
  signed <- lift (serialize_base64 signedTx) ;;
  res <- await (execute (executeRequest depositRes signed)) ;;
  await (depositInDatabase (databaseRequest r depositRes)) ;;
  act (toast (successToast r res)) ;;
  act (setLoading false).

(** Lines 141-144: the [catch] block. *)
Definition submit_catch (_ : Exn) : Prog unit :=
  act (setLoading false) ;;
  act (toast_error submit_failed).

Definition onSubmit (r : Render) : Prog unit :=
  match connection r, publicKey r, signTransaction r with
  | Some _, Some pk, Some _ =>
      if negb (ToBoolean (receiverDiscordId r)) then
        act (console_log receiver_required_msg)
      else
        try_catch (submit_try r pk) submit_catch
  | _, _, _ => act (console_log connect_wallet_msg)
  end.

(** ** Running a handler *)

Definition perform (a : Action) (s : Store) : Store :=
  match a with
  | setTokenBalance tb =>
      {| tokenBalance := tb; loading := loading s; error := error s;
         isFetchingRef := isFetchingRef s |}
  | setLoading b =>
      {| tokenBalance := tokenBalance s; loading := b; error := error s;
         isFetchingRef := isFetchingRef s |}
  | setError e =>
      {| tokenBalance := tokenBalance s; loading := loading s; error := e;
         isFetchingRef := isFetchingRef s |}
  | setIsFetching b =>
      {| tokenBalance := tokenBalance s; loading := loading s;
         error := error s; isFetchingRef := b |}
  | console_log _ | console_error _ | toast _ | toast_error _ => s
  end.

(** Where a handler stands when it gives control back. *)
Inductive Status (A : Type) : Type :=
| Done (a : A)
| Failed (e : Exn)
| Suspended (R : Type) (c : Call R) (k : Outcome R -> Prog A).
Arguments Done {A} a.
Arguments Failed {A} e.
Arguments Suspended {A R} c k.

(** Run to the next suspension point: the new store, what was done,
    and where the handler stands. *)
Fixpoint advance {A : Type} (p : Prog A) (s : Store)
  : Store * list Action * Status A :=
  match p with
  | Ret a => (s, [], Done a)
  | Throw e => (s, [], Failed e)
  | ReadRef k => advance (k (isFetchingRef s)) s
  | Do a k =>
      let '(s', out, st) := advance k (perform a s) in (s', a :: out, st)
  | Await c k => (s, [], Suspended c k)
  end.

(** One invocation run alone against collaborators that answer each
    call at once. *)
Definition Oracle : Type := forall R : Type, Call R -> Outcome R.

Inductive Event : Type :=
| EvDo (a : Action)
| EvCall (R : Type) (c : Call R)
| EvSettle (R : Type) (c : Call R) (o : Outcome R).
Arguments EvCall {R} c.
Arguments EvSettle {R} c o.

Fixpoint run {A : Type} (w : Oracle) (p : Prog A) (s : Store)
  : Store * list Event * (Exn + A) :=
  match p with
  | Ret a => (s, [], inr a)
  | Throw e => (s, [], inl e)
  | ReadRef k => run w (k (isFetchingRef s)) s
  | Do a k =>
      let '(s', tr, res) := run w k (perform a s) in (s', EvDo a :: tr, res)
  | Await c k =>
      let '(s', tr, res) := run w (k (w _ c)) s in
      (s', EvCall c :: EvSettle c (w _ c) :: tr, res)
  end.

(** ** The event loop

    Handlers interleave at their suspension points: a configuration
    holds the store, the suspended handlers and everything done so
    far.  A step starts a handler from some render, or settles one
    awaited call and runs its continuation to the next suspension. *)

Inductive Pending : Type :=
| Pend (R : Type) (c : Call R) (k : Outcome R -> Prog unit).
Arguments Pend {R} c k.

Record Config : Type := {
  store : Store;
  pending : list Pending;
  output : list Action
}.

Definition initialConfig : Config :=
  {| store := initialStore; pending := []; output := [] |}.

Definition launch (p : Prog unit) (s : Store) (waiting : list Pending)
           (out : list Action) : Config :=
  let '(s', done, st) := advance p s in
  {| store := s';
     pending := match st with
                | Suspended c k => waiting ++ [Pend c k]
                | _ => waiting
                end;
     output := out ++ done |}.

Inductive step : Config -> Config -> Prop :=
| step_fetch (r : Render) (cfg : Config) :
    step cfg (launch (fetchTokenBalance r)
                     (store cfg) (pending cfg) (output cfg))
| step_submit (r : Render) (cfg : Config) :
    step cfg (launch (onSubmit r) (store cfg) (pending cfg) (output cfg))
| step_settle (cfg : Config) (before after : list Pending)
              (R : Type) (c : Call R) (k : Outcome R -> Prog unit)
              (o : Outcome R) :
    pending cfg = before ++ Pend c k :: after ->
    step cfg (launch (k o) (store cfg) (before ++ after) (output cfg)).

Inductive reachable : Config -> Prop :=
| reach_init : reachable initialConfig
| reach_step (cfg cfg' : Config) :
    reachable cfg -> step cfg cfg' -> reachable cfg'.

Definition is_fetch {R : Type} (c : Call R) : bool :=
  match c with
  | getParsedTokenAccountsByOwner _ _ _ => true
  | _ => false
  end.

Definition in_flight (p : Pending) : bool :=
  match p with Pend c _ => is_fetch c end.

(** The number of balance fetches awaiting their answer. *)
Definition fetches_in_flight (cfg : Config) : nat :=
  List.length (filter in_flight (pending cfg)).

(** What [fetchTokenBalance] still has to do once its call settles. *)
Definition fetch_resumed (o : Outcome (list ParsedInfo)) : Prog unit :=
  try_finally
    (try_catch (accounts <- settled o ;; storeBalance accounts) fetch_catch)
    fetch_finally.

(** Actions that leave the balance, the error and the flag alone. *)
Definition quiet_action (a : Action) : bool :=
  match a with
  | setTokenBalance _ | setError _ | setIsFetching _ => false
  | _ => true
  end.

(** Handlers that never read or write the flag, never touch the
    balance or the error, and never fetch the token accounts. *)
Inductive Quiet {A : Type} : Prog A -> Prop :=
| Quiet_Ret (a : A) : Quiet (Ret a)
| Quiet_Throw (e : Exn) : Quiet (Throw e)
| Quiet_Do (a : Action) (k : Prog A) :
    quiet_action a = true -> Quiet k -> Quiet (Do a k)
| Quiet_Await (R : Type) (c : Call R) (k : Outcome R -> Prog A) :
    is_fetch c = false -> (forall o, Quiet (k o)) -> Quiet (Await c k).

Definition pending_ok (p : Pending) : Prop :=
  match p with
  | Pend c k =>
      match c in Call R return (Outcome R -> Prog unit) -> Prop with
      | getParsedTokenAccountsByOwner _ _ _ => fun k => k = fetch_resumed
      | _ => fun k => forall o, Quiet (k o)
      end k
  end.

Definition error_ok (e : option string) : Prop :=
  e = None \/ e = Some token_not_found \/ e = Some fetch_failed.

(** The invariant of the event loop. *)
Record Inv (cfg : Config) : Prop := {
  inv_pending : Forall pending_ok (pending cfg);
  inv_flag :
    fetches_in_flight cfg = if isFetchingRef (store cfg) then 1 else 0;
  inv_error : error_ok (error (store cfg));
  inv_clear : isFetchingRef (store cfg) = true -> error (store cfg) = None
}.

(** ** Notions the statements are phrased with *)

(** The fetched balance as a number: a missing balance, a null amount
    and a NaN amount count as 0. *)
Definition fetchedBalance (s : Store) : number :=
  match tokenBalance s with
  | Some tb =>
      match tb_amount tb with
      | Some x => if is_nan x then zero else x
      | None => zero
      end
  | None => zero
  end.

(** The preconditions of a submit: connection, public key and signer
    present, receiver identifier present and not empty. *)
Definition submit_ready (r : Render) : bool :=
  is_some (connection r) && is_some (publicKey r)
  && is_some (signTransaction r) && ToBoolean (receiverDiscordId r).

Definition is_call (e : Event) : bool :=
  match e with EvCall _ => true | _ => false end.

Definition is_rejection (e : Event) : bool :=
  match e with EvSettle _ (Rejected _) => true | _ => false end.

(** The notifications shown to the user. *)
Definition is_notification (e : Event) : bool :=
  match e with
  | EvDo (toast _) | EvDo (toast_error _) => true
  | _ => false
  end.

(** What follows the first rejected call. *)
Fixpoint after_rejection (tr : list Event) : list Event :=
  match tr with
  | [] => []
  | e :: rest => if is_rejection e then rest else after_rejection rest
  end.

(** The amounts handed to [deposit] and [depositInDatabase]. *)
Fixpoint amounts_sent (tr : list Event) : list number :=
  match tr with
  | [] => []
  | EvCall c :: rest =>
      match c with
      | deposit req =>
          deposit_amount req :: token_amount (token req)
            :: amounts_sent rest
      | depositInDatabase req => db_amount req :: amounts_sent rest
      | _ => amounts_sent rest
      end
  | _ :: rest => amounts_sent rest
  end.

(** The requests handed to [depositInDatabase]. *)
Fixpoint database_requests (tr : list Event) : list DepositInDatabaseRequest :=
  match tr with
  | [] => []
  | EvCall c :: rest =>
      match c with
      | depositInDatabase req => req :: database_requests rest
      | _ => database_requests rest
      end
  | _ :: rest => database_requests rest
  end.

(** The answers [execute] gave. *)
Fixpoint execute_results (tr : list Event) : list ExecuteResponse :=
  match tr with
  | [] => []
  | EvSettle c o :: rest =>
      match c in Call R return Outcome R -> list ExecuteResponse with
      | execute _ => fun o =>
          match o with
          | Resolved res => res :: execute_results rest
          | Rejected _ => execute_results rest
          end
      | _ => fun _ => execute_results rest
      end o
  | _ :: rest => execute_results rest
  end.

(** The store right after a fetch has passed its guard. *)
Definition fetching (s : Store) : Store :=
  {| tokenBalance := tokenBalance s; loading := true; error := None;
     isFetchingRef := true |}.

Definition trace_of {A : Type} (x : Store * list Event * A) : list Event :=
  snd (fst x).

Definition store_of {A : Type} (x : Store * list Event * A) : Store :=
  fst (fst x).

End Component.

Arguments Resolved {R} r.
Arguments Rejected {R} e.
Arguments Ret {P A} a.
Arguments Throw {P A} e.
Arguments ReadRef {P A} k.
Arguments Do {P A} a k.
Arguments Await {P A R} c k.
Arguments Done {P A} a.
Arguments Failed {P A} e.
Arguments Suspended {P A R} c k.
Arguments EvCall {P R} c.
Arguments EvSettle {P R} c o.
Arguments Pend {P R} c k.

(** ** The rendered page

    What [TipContent] returns, kept to the holes of its JSX: the text
    children, the conditional blocks and the button's attributes.
    Printing a number, grouping its digits for the locale and
    shortening a wallet address belong to the platform and to
    [@/utils/wallet]. *)
Class Display : Type := {
  (** the text React prints for a number child *)
  NumberToString : number -> string;
  (** [x.toLocaleString(undefined, { minimumFractionDigits: 0,
      maximumFractionDigits: d })] *)
  toLocaleString : number -> number -> Exn + string;
  (** [formatWalletAddress(address)] *)
  formatWalletAddress : string -> Exn + string
}.

(** The literal [6]. *)
Definition six : number := S754_finite false 6755399441055744 (-50).

(** Reading a property of [null]. *)
Definition null_property_error : Exn :=
  "TypeError: Cannot read properties of null (reading 'toLocaleString')".

(** Lines 244-259: what the button shows. *)
Inductive ButtonLabel : Type :=
| LabelLoading
| LabelInsufficient
| LabelSend (amountText : string).

(** Lines 163-268: the holes of the connected view, in source order. *)
Record TipForm : Type := {
  form_heading : string;
  form_tip : string;
  form_receiver : string;
  form_connect_box : bool;
  form_wallet : string;
  form_balance : value;
  form_required : string;
  form_error : option string;
  form_disabled : bool;
  form_label : ButtonLabel
}.

Inductive View : Type :=
| ConnectPrompt (heading : string)
| Form (f : TipForm).

(** The four awaited steps of a submit and the balance fetch, by name. *)
Inductive StepName : Type :=
| StepFetch
| StepDeposit
| StepSign
| StepExecute
| StepRecord.

Section Page.
Context {P : Platform} {D : Display}.

(** Lines 208-214: [tokenBalance?.amount.toLocaleString(...) || 0]. *)
Definition balanceChild (s : Store) : Exn + value :=
  match tokenBalance s with
  | None => inr (js_or undefined (num zero))
  | Some tb =>
      match tb_amount tb with
      | None => inl null_property_error
      | Some x =>
          match toLocaleString x (or_number (tb_decimals tb) six) with
          | inl e => inl e
          | inr text => inr (js_or (str text) (num zero))
          end
      end
  end.

(** Line 196: [formatWalletAddress] of [publicKey?.toString()], or of
    the empty string. *)
Definition walletChild (r : Render) : Exn + string :=
  formatWalletAddress
    (match or_string (option_map toBase58 (publicKey r)) (Some EmptyString) with
     | Some address => address
     | None => EmptyString
     end).

(** Lines 232-236: [error && (...)]. *)
Definition errorChild (s : Store) : option string :=
  match error s with
  | Some e => if ToBoolean (str e) then Some e else None
  | None => None
  end.

Definition buttonLabel (r : Render) (s : Store) : ButtonLabel :=
  if loading s then LabelLoading
  else if negb (hasBalance r s) then LabelInsufficient
  else LabelSend (NumberToString (amount r) ++ " USDC")%string.

(** Lines 151-269: one render; a thrown exception aborts it. *)
Definition render (r : Render) (s : Store) : Exn + View :=
  if negb (connected r) then
    inr (ConnectPrompt ("Tip @" ++ jsx_text (receiverUsername r))%string)
  else
    match walletChild r with
    | inl e => inl e
    | inr wallet =>
        match balanceChild s with
        | inl e => inl e
        | inr balance =>
            inr (Form
              {| form_heading :=
                   ("Tip @" ++ jsx_text (receiverUsername r))%string;
                 form_tip := (NumberToString (amount r) ++ " USDC")%string;
                 form_receiver :=
                   ("to @" ++ jsx_text (receiverUsername r))%string;
                 form_connect_box := negb (connected r);
                 form_wallet := wallet;
                 form_balance := balance;
                 form_required :=
                   (NumberToString (amount r) ++ " USDC")%string;
                 form_error := errorChild s;
                 form_disabled := disabled r s;
                 form_label := buttonLabel r s |})
        end
    end.

(** The submit button is on the page and can be clicked. *)
Definition clickable (r : Render) (s : Store) : bool :=
  match render r s with
  | inr (Form f) => negb (form_disabled f)
  | _ => false
  end.

(** ** More notions the statements are phrased with *)

(** A handler that never throws out and that, once it has set
    [loading] or has been suspended, sets [loading] to false before it
    returns.  [known] says that [loading] is false, or still what it
    was when the handler was started. *)
Fixpoint tidy {A : Type} (known : bool) (p : Prog A) : Prop :=
  match p with
  | Ret _ => known = true
  | Throw _ => False
  | ReadRef k => forall b, tidy known (k b)
  | Do a k =>
      tidy (match a with setLoading v => negb v | _ => known end) k
  | Await c k => forall o, tidy false (k o)
  end.

Definition pending_tidy (p : Pending) : Prop :=
  match p with Pend c k => forall o, tidy false (k o) end.

(** What the event loop keeps besides [Inv]. *)
Record PageInv (cfg : Config) : Prop := {
  page_mint :
    forall tb, tokenBalance (store cfg) = Some tb -> tb_mint tb = mintAddress;
  page_not_found :
    error (store cfg) = Some token_not_found ->
    tokenBalance (store cfg) = None;
  page_idle : pending cfg = [] -> loading (store cfg) = false;
  page_pending : Forall pending_tidy (pending cfg)
}.

Definition step_name {R : Type} (c : Call R) : StepName :=
  match c with
  | getParsedTokenAccountsByOwner _ _ _ => StepFetch
  | deposit _ => StepDeposit
  | wallet_signTransaction _ => StepSign
  | execute _ => StepExecute
  | depositInDatabase _ => StepRecord
  end.

(** The steps a run called, in order. *)
Fixpoint steps_called (tr : list Event) : list StepName :=
  match tr with
  | [] => []
  | EvCall c :: rest => step_name c :: steps_called rest
  | _ :: rest => steps_called rest
  end.

Definition is_success (e : Event) : bool :=
  match e with EvDo (toast _) => true | _ => false end.

(** ** The page as its user drives it

    The event loop above lets a handler start at any time, which is
    what an invariant needs.  To show that the page can get somewhere,
    the handlers start only the way the component starts them: the
    effect of lines 147-149 runs [fetchTokenBalance] on mount and after
    a render in which the public key, the connected flag or the
    connection has changed, and [onSubmit] runs on a click of the
    button, which is there and enabled. *)

Definition same_key (a b : option PublicKey) : bool :=
  match a, b with
  | Some x, Some y => toBase58 x =? toBase58 y
  | None, None => true
  | _, _ => false
  end.

Definition same_connection (a b : option Connection) : bool :=
  match a, b with
  | Some x, Some y => rpcEndpoint x =? rpcEndpoint y
  | None, None => true
  | _, _ => false
  end.

(** Line 82, the dependencies of [fetchTokenBalance]: two renders whose
    public keys, connected flags or connections differ in value hold
    different objects, so the callback is a new one and the effect
    runs.  A render that keeps all three is taken not to run it. *)
Definition deps_changed (r r' : Render) : bool :=
  negb (same_key (publicKey r) (publicKey r')
        && Bool.eqb (connected r) (connected r')
        && same_connection (connection r) (connection r')).

(** The last render and the configuration of the event loop. *)
Record Page : Type := {
  current : Render;
  config : Config
}.

Inductive page_step : Page -> Page -> Prop :=
| page_rerender (pg : Page) (r' : Render) :
    page_step pg
      {| current := r';
         config :=
           if deps_changed (current pg) r' then
             launch (fetchTokenBalance r') (store (config pg))
                    (pending (config pg)) (output (config pg))
           else config pg |}
| page_click (pg : Page) :
    clickable (current pg) (store (config pg)) = true ->
    page_step pg
      {| current := current pg;
         config :=
           launch (onSubmit (current pg)) (store (config pg))
                  (pending (config pg)) (output (config pg)) |}
| page_settle (pg : Page) (before after : list Pending)
              (R : Type) (c : Call R) (k : Outcome R -> Prog unit)
              (o : Outcome R) :
    pending (config pg) = before ++ Pend c k :: after ->
    page_step pg
      {| current := current pg;
         config :=
           launch (k o) (store (config pg)) (before ++ after)
                  (output (config pg)) |}.

Inductive page_reachable : Page -> Prop :=
| page_mount (r : Render) :
    page_reachable
      {| current := r;
         config := launch (fetchTokenBalance r) initialStore [] [] |}
| page_then (pg pg' : Page) :
    page_reachable pg -> page_step pg pg' -> page_reachable pg'.

End Page.

(** ** A worked instance

    A platform and a page request on which the statements below are
    evaluated.  [decimalToNumber] is the string-to-number conversion on
    the unsigned decimal integer literals (rounded to binary64) and on
    strings with no digits-only reading, which it sends to NaN. *)
Module Demo.

Definition digit (c : Ascii.ascii) : option Z :=
  let n := Z.of_nat (Ascii.nat_of_ascii c) in
  if (48 <=? n)%Z && (n <=? 57)%Z then Some (n - 48)%Z else None.

Fixpoint digits (acc : Z) (s : string) : option Z :=
  match s with
  | EmptyString => Some acc
  | String c rest =>
      match digit c with
      | Some d => digits (10 * acc + d)%Z rest
      | None => None
      end
  end.

Definition decimalToNumber (s : string) : number :=
  match s with
  | EmptyString => zero
  | _ =>
      match digits 0 s with
      | Some n => binary_normalize 53 1024 n 0 false
      | None => NaN
      end
  end.

Definition USDC : string := "EPjFWdd5AufqSSqeM2qN1xzybapC8G4wEGGkZwyTDt1v".

(** Transactions are kept in their wire form; the empty string decodes
    to nothing. *)
Definition platform : Platform :=
  {| StringToNumber := decimalToNumber;
     Transaction := string;
     Transaction_from_base64 :=
       fun s => if s =? EmptyString then inl "invalid transaction" else inr s;
     serialize_base64 := fun tx => inr tx;
     NEXT_PUBLIC_USDC_MINT_ADDRESS := Some USDC |}.

#[local] Existing Instance platform.

Definition rpc : Connection :=
  {| rpcEndpoint := "https://api.mainnet-beta.solana.com" |}.

Definition payerKey : PublicKey := {| toBase58 := "payer-key" |}.

Definition page (amountParam : string) : Render :=
  {| searchParams := [("amount", amountParam);
                      ("receiver_username", "alice");
                      ("receiver_user_id", "42")];
     receiverVault := Some "vault-7";
     connection := Some rpc;
     publicKey := Some payerKey;
     connected := true;
     signTransaction := Some walletSigner |}.

(** The same request before a wallet is connected. *)
Definition page_no_wallet : Render :=
  {| searchParams := searchParams (page "5");
     receiverVault := Some "vault-7";
     connection := Some rpc;
     publicKey := None;
     connected := false;
     signTransaction := None |}.

Definition ten : number := decimalToNumber "10".

Definition usdcAccount : ParsedInfo :=
  {| info_mint := USDC; info_uiAmount := Some ten;
     info_decimals := decimalToNumber "6" |}.

Definition otherAccount : ParsedInfo :=
  {| info_mint := "So11111111111111111111111111111111111111112";
     info_uiAmount := Some (decimalToNumber "3");
     info_decimals := decimalToNumber "9" |}.

Definition funded : Store :=
  {| tokenBalance := Some {| tb_mint := USDC; tb_amount := Some ten;
                             tb_decimals := decimalToNumber "6" |};
     loading := false; error := None; isFetchingRef := false |}.

Definition depositRes : DepositResponse :=
  {| serializedTransaction := "AQAB"; vaultId := "vault-7";
     transactionId := "tx-1" |}.

(** Collaborators that all succeed; [execute] answers [hash]. *)
Definition backend (hash : string) : Oracle :=
  fun R c =>
    match c in Call R return Outcome R with
    | getParsedTokenAccountsByOwner _ _ _ =>
        Resolved [otherAccount; usdcAccount]
    | deposit _ => Resolved depositRes
    | wallet_signTransaction tx => Resolved (tx ++ ".signed")%string
    | execute _ => Resolved {| txHash := hash |}
    | depositInDatabase _ => Resolved tt
    end.

(** Collaborators among which [execute] rejects. *)
Definition backend_execute_down : Oracle :=
  fun R c =>
    match c in Call R return Outcome R with
    | execute _ => Rejected "execute failed"
    | c' => backend "h" _ c'
    end.

(** One tip of 5 from a funded wallet, [execute] answering [hash]. *)
Definition tipped (hash : string) : Store * list Event * (Exn + unit) :=
  run (backend hash) (onSubmit (page "5")) funded.

(** The page right after mount, its first balance fetch in flight. *)
Definition started : Config :=
  launch (fetchTokenBalance (page "5")) initialStore [] [].

(** The page with one submit suspended on [deposit]. *)
Definition submitting : Config :=
  launch (onSubmit (page "5")) initialStore [] [].

End Demo.

(** ** The worked instance, rendered *)
Module DemoPage.

Import Demo.
#[local] Existing Instance platform.

(** The decimal text of an integer-valued number; the fraction of any
    other number is dropped, which the instance never prints. *)
Definition integerText (x : number) : string :=
  match x with
  | S754_zero _ => "0"
  | S754_nan => "NaN"
  | S754_infinity false => "Infinity"
  | S754_infinity true => "-Infinity"
  | S754_finite sgn m e =>
      let z := Z.shiftl (Zpos m) e in
      DecimalString.NilZero.string_of_int
        (Z.to_int (if sgn then (- z)%Z else z))
  end.

Definition display : Display :=
  {| NumberToString := integerText;
     toLocaleString := fun x _ => inr (integerText x);
     formatWalletAddress :=
       fun address => inr (substring 0 4 address ++ "...")%string |}.

#[local] Existing Instance display.

(** The page after its first fetch found the token account. *)
Definition loaded : Config :=
  launch (fetch_resumed (Resolved [otherAccount; usdcAccount]))
         (store started) [] (output started).

(** The page after its first fetch found no such account. *)
Definition missing : Config :=
  launch (fetch_resumed (Resolved [otherAccount]))
         (store started) [] (output started).

(** A token account of the mint whose [uiAmount] is null. *)
Definition nullAccount : ParsedInfo :=
  {| info_mint := USDC; info_uiAmount := None;
     info_decimals := decimalToNumber "6" |}.

(** A backend whose deposit transaction is empty. *)
Definition backend_empty_transaction : Oracle :=
  fun R c =>
    match c in Call R return Outcome R with
    | deposit _ =>
        Resolved {| serializedTransaction := EmptyString;
                    vaultId := "vault-7"; transactionId := "tx-1" |}
    | c' => backend "h" _ c'
    end.

(** The request with no [amount] parameter. *)
Definition page_no_amount : Render :=
  {| searchParams := [("receiver_username", "alice");
                      ("receiver_user_id", "42")];
     receiverVault := Some "vault-7";
     connection := Some rpc;
     publicKey := Some payerKey;
     connected := true;
     signTransaction := Some walletSigner |}.

(** The same request after the wallet has switched to another account. *)
Definition otherKey : PublicKey := {| toBase58 := "other-key" |}.

Definition page_switched : Render :=
  {| searchParams := searchParams (page "5");
     receiverVault := Some "vault-7";
     connection := Some rpc;
     publicKey := Some otherKey;
     connected := true;
     signTransaction := Some walletSigner |}.

(** What the funded page of a tip of 5 shows. *)
Definition fundedForm : TipForm :=
  {| form_heading := "Tip @alice";
     form_tip := "5 USDC";
     form_receiver := "to @alice";
     form_connect_box := false;
     form_wallet := "paye...";
     form_balance := str "10";
     form_required := "5 USDC";
     form_error := None;
     form_disabled := false;
     form_label := LabelSend "5 USDC" |}.

(** A platform that refuses to serialize anything but the signed
    transaction, and a wallet that hands the transaction back as it
    got it. *)
Definition checking : Platform :=
  {| StringToNumber := decimalToNumber;
     Transaction := string;
     Transaction_from_base64 := fun s => inr s;
     serialize_base64 :=
       fun tx => if tx =? "AQAB.signed" then inr tx
                 else inl "Signature verification failed";
     NEXT_PUBLIC_USDC_MINT_ADDRESS := Some USDC |}.

Definition idle_wallet : @Oracle checking :=
  fun R c =>
    match c in @Call _ R return Outcome R with
    | getParsedTokenAccountsByOwner _ _ _ => Resolved []
    | deposit _ => Resolved depositRes
    | wallet_signTransaction tx => Resolved tx
    | execute _ => Resolved {| txHash := "h" |}
    | depositInDatabase _ => Resolved tt
    end.

End DemoPage.


(** * Properties *)

(** ** Comparisons of numbers *)

Lemma SFcompare_swap (a b : number) :
  SFcompare b a = option_map CompOpp (SFcompare a b).
Proof.
  destruct a as [sa | sa | | sa ma ea], b as [sb | sb | | sb mb eb];
    cbn; try reflexivity;
    try (destruct sa; reflexivity);
    try (destruct sb; reflexivity);
    try (destruct sa, sb; reflexivity).
  rewrite (Z.compare_antisym ea eb).
  rewrite !Pos.compare_cont_spec; cbn.
  rewrite (Pos.compare_antisym ma mb).
  destruct sa, sb, (ea ?= eb)%Z, (ma ?= mb)%positive; reflexivity.
Qed.

Lemma SFcompare_nan (a b : number) :
  SFcompare a b = None <-> is_nan a = true \/ is_nan b = true.
Proof.
  destruct a, b; cbn; split; intros H; try discriminate; auto;
    destruct H; discriminate.
Qed.

Lemma js_gt_nan_l (b : number) : js_gt NaN b = false.
Proof. unfold js_gt, SFltb. destruct b; reflexivity. Qed.

Lemma not_gt_iff_le (a b : number) :
  js_gt a b = false <-> is_nan a = true \/ is_nan b = true \/ js_le a b = true.
Proof.
  unfold js_gt, js_le, SFltb, SFleb. rewrite (SFcompare_swap a b).
  destruct (SFcompare a b) as [c |] eqn:E; cbn.
  - assert (N : ~ (is_nan a = true \/ is_nan b = true)).
    { intros H. apply SFcompare_nan in H. congruence. }
    destruct c; cbn; split; intros H; auto; try discriminate;
      destruct H as [H | [H | H]]; try discriminate; exfalso; auto.
  - apply SFcompare_nan in E. split; intros _; [tauto | reflexivity].
Qed.

(** Signed zeros compare alike. *)
Lemma SFcompare_zero (a : number) (s : bool) :
  SFcompare a (S754_zero s) = SFcompare a zero.
Proof. destruct a; reflexivity. Qed.

Section Properties.
Context {P : Platform}.

Lemma balanceAmount_not_nan (s : Store) : is_nan (balanceAmount s) = false.
Proof.
  unfold balanceAmount, or_number.
  destruct (tokenBalance s) as [[m [[| | |] |] d] |]; reflexivity.
Qed.

(** The balance the code compares with stands in the same relation to
    every number as the fetched balance. *)
Lemma balanceAmount_compare (s : Store) (a : number) :
  SFcompare a (balanceAmount s) = SFcompare a (fetchedBalance s).
Proof.
  unfold balanceAmount, fetchedBalance, or_number.
  destruct (tokenBalance s) as [[m [[| | |] |] d] |]; cbn;
    try reflexivity; apply SFcompare_zero.
Qed.

Lemma hasBalance_not_gt (r : Render) (s : Store) :
  hasBalance r s = negb (js_gt (amount r) (balanceAmount s)).
Proof. unfold hasBalance. destruct (js_gt _ _); reflexivity. Qed.

(** C3 (as amended): [hasBalance()] returns true if and only if the
    requested amount is NaN or is less than or equal to the fetched
    balance amount, where a missing, null or NaN balance counts as 0. *)
Theorem hasBalance_iff (r : Render) (s : Store) :
  hasBalance r s = true <->
  is_nan (amount r) = true \/ js_le (amount r) (fetchedBalance s) = true.
Proof.
  rewrite hasBalance_not_gt, negb_true_iff, not_gt_iff_le.
  rewrite balanceAmount_not_nan.
  unfold js_le, SFleb. rewrite balanceAmount_compare.
  intuition discriminate.
Qed.

End Properties.

Section Handlers.
Context {P : Platform}.

(** *** The two ways of running a handler agree

    Running a handler alone is advancing it to its next suspension
    point, settling the call with the oracle's answer and going on. *)
Lemma run_advance {A : Type} (w : Oracle) (p : Prog A) (s : Store) :
  run w p s =
  match advance p s with
  | (s', out, Done a) => (s', map EvDo out, inr a)
  | (s', out, Failed e) => (s', map EvDo out, inl e)
  | (s', out, Suspended c k) =>
      let '(s'', tr, res) := run w (k (w _ c)) s' in
      (s'', map EvDo out ++ EvCall c :: EvSettle c (w _ c) :: tr, res)
  end.
Proof.
  revert s. induction p as [a | e | k IH | a k IH | R c k _]; intros s;
    cbn; try reflexivity.
  - apply IH.
  - rewrite IH. destruct (advance k (perform a s)) as [[s' out] st].
    destruct st as [b | e | R c k']; try reflexivity.
    destruct (run w (k' (w R c)) s') as [[s'' tr] res]. reflexivity.
Qed.

(** *** Quiet handlers *)

Lemma Quiet_bind {A B : Type} (p : Prog A) (f : A -> Prog B) :
  Quiet p -> (forall a, Quiet (f a)) -> Quiet (bind p f).
Proof.
  intros Hp Hf. induction Hp; cbn; auto; constructor; auto.
Qed.

Lemma Quiet_try_catch {A : Type} (p : Prog A) (h : Exn -> Prog A) :
  Quiet p -> (forall e, Quiet (h e)) -> Quiet (try_catch p h).
Proof.
  intros Hp Hh. induction Hp; cbn; auto; constructor; auto.
Qed.

Lemma Quiet_act (a : Action) : quiet_action a = true -> Quiet (act a).
Proof. intros H. constructor; [assumption | constructor]. Qed.

Lemma Quiet_await {R : Type} (c : Call R) :
  is_fetch c = false -> Quiet (await c).
Proof.
  intros H. constructor; [assumption |]. intros [r | e]; constructor.
Qed.

Lemma Quiet_lift {A : Type} (x : Exn + A) : Quiet (lift x).
Proof. destruct x; constructor. Qed.

Lemma Quiet_submit_catch (e : Exn) : Quiet (submit_catch e).
Proof. repeat constructor. Qed.

Lemma Quiet_submit_try (r : Render) (pk : PublicKey) :
  Quiet (submit_try r pk).
Proof.
  unfold submit_try.
  repeat first
    [ apply Quiet_bind; [| intros ?]
    | apply Quiet_act; reflexivity
    | apply Quiet_await; reflexivity
    | apply Quiet_lift ].
Qed.

Lemma Quiet_onSubmit (r : Render) : Quiet (onSubmit r).
Proof.
  unfold onSubmit.
  destruct (connection r), (publicKey r), (signTransaction r);
    try (apply Quiet_act; reflexivity).
  destruct (negb _); [apply Quiet_act; reflexivity |].
  apply Quiet_try_catch;
    [apply Quiet_submit_try | apply Quiet_submit_catch].
Qed.

(** A quiet handler does the same whatever the store holds. *)
Lemma Quiet_run {A : Type} (w : Oracle) (p : Prog A) :
  Quiet p ->
  forall s1 s2,
    snd (fst (run w p s1)) = snd (fst (run w p s2))
    /\ snd (run w p s1) = snd (run w p s2).
Proof.
  induction 1 as [a | e | a k Ha Hk IH | R c k Hc Hk IH]; intros s1 s2;
    cbn; auto.
  - specialize (IH (perform a s1) (perform a s2)).
    destruct (run w k (perform a s1)) as [[? ?] ?],
             (run w k (perform a s2)) as [[? ?] ?]; cbn in *.
    destruct IH; split; congruence.
  - specialize (IH (w _ c) s1 s2).
    destruct (run w (k (w _ c)) s1) as [[? ?] ?],
             (run w (k (w _ c)) s2) as [[? ?] ?]; cbn in *.
    destruct IH; split; congruence.
Qed.

Lemma quiet_perform (a : Action) (s : Store) :
  quiet_action a = true ->
  isFetchingRef (perform a s) = isFetchingRef s
  /\ error (perform a s) = error s
  /\ tokenBalance (perform a s) = tokenBalance s.
Proof. destruct a; cbn; intros H; try discriminate; auto. Qed.

Lemma Quiet_advance (p : Prog unit) :
  Quiet p ->
  forall s,
    let '(s', _, st) := advance p s in
    isFetchingRef s' = isFetchingRef s
    /\ error s' = error s
    /\ tokenBalance s' = tokenBalance s
    /\ match st with
       | Suspended c k => is_fetch c = false /\ forall o, Quiet (k o)
       | _ => True
       end.
Proof.
  induction 1 as [a | e | a k Ha Hk IH | R c k Hc Hk IH]; intros s;
    cbn; auto.
  specialize (IH (perform a s)).
  destruct (advance k (perform a s)) as [[s' out] st].
  destruct (quiet_perform a s Ha) as (E1 & E2 & E3).
  destruct IH as (I1 & I2 & I3 & I4).
  split; [congruence |]. split; [congruence |].
  split; [congruence | exact I4].
Qed.

(** *** The submit handler, case by case *)

Lemma onSubmit_ready (r : Render) :
  submit_ready r = true ->
  exists pk, publicKey r = Some pk
             /\ onSubmit r = try_catch (submit_try r pk) submit_catch.
Proof.
  unfold submit_ready, onSubmit. intros H.
  destruct (connection r), (publicKey r) as [pk |], (signTransaction r);
    try discriminate.
  cbn in H. rewrite H. exists pk. split; reflexivity.
Qed.

Lemma onSubmit_not_ready (r : Render) :
  submit_ready r = false ->
  exists msg,
    (msg = connect_wallet_msg \/ msg = receiver_required_msg)
    /\ onSubmit r = act (console_log msg).
Proof.
  unfold submit_ready, onSubmit. intros H.
  destruct (connection r), (publicKey r), (signTransaction r);
    try (exists connect_wallet_msg; split; [left |]; reflexivity).
  cbn in H. rewrite H.
  exists receiver_required_msg; split; [right |]; reflexivity.
Qed.

(** The run in which every step succeeds. *)
Lemma submit_success_run (w : Oracle) (r : Render) (pk : PublicKey)
      (s : Store) (depositRes : DepositResponse) (tx signedTx : Transaction)
      (signed : string) (res : ExecuteResponse) :
  w _ (deposit (depositRequest r pk)) = Resolved depositRes ->
  Transaction_from_base64 (serializedTransaction depositRes) = inr tx ->
  w _ (wallet_signTransaction tx) = Resolved signedTx ->
  serialize_base64 signedTx = inr signed ->
  w _ (execute (executeRequest depositRes signed)) = Resolved res ->
  w _ (depositInDatabase (databaseRequest r depositRes)) = Resolved tt ->
  run w (try_catch (submit_try r pk) submit_catch) s =
  (perform (setLoading false) (perform (setLoading true) s),
   [ EvDo (setLoading true);
     EvCall (deposit (depositRequest r pk));
     EvSettle (deposit (depositRequest r pk)) (Resolved depositRes);
     EvCall (wallet_signTransaction tx);
     EvSettle (wallet_signTransaction tx) (Resolved signedTx);
     EvCall (execute (executeRequest depositRes signed));
     EvSettle (execute (executeRequest depositRes signed)) (Resolved res);
     EvCall (depositInDatabase (databaseRequest r depositRes));
     EvSettle (depositInDatabase (databaseRequest r depositRes))
              (Resolved tt);
     EvDo (toast (successToast r res));
     EvDo (setLoading false) ],
   inr tt).
Proof.
  intros H1 H2 H3 H4 H5 H6.
  unfold submit_try, await, act.
  cbn [run bind try_catch settled lift].
  rewrite H1. cbn [run bind try_catch settled lift]. rewrite H2.
  cbn [run bind try_catch settled lift]. rewrite H3.
  cbn [run bind try_catch settled lift]. rewrite H4.
  cbn [run bind try_catch settled lift]. rewrite H5.
  cbn [run bind try_catch settled lift]. rewrite H6.
  reflexivity.
Qed.

End Handlers.

Section Submit.
Context {P : Platform}.

(** Settle the next awaited call, or the next codec call, both ways. *)
Ltac settle_next w :=
  cbn [run bind try_catch settled lift];
  match goal with
  | |- context [w ?R ?c] => destruct (w R c) as [? | ?] eqn:?
  | |- context [Transaction_from_base64 ?x] =>
      destruct (Transaction_from_base64 x) as [? | ?] eqn:?
  | |- context [serialize_base64 ?x] =>
      destruct (serialize_base64 x) as [? | ?] eqn:?
  end.

(** C1 (as amended): when the preconditions hold and no step fails,
    [onSubmit] runs deposit, sign, execute and depositInDatabase in
    that order, each one called only after the previous one has
    settled.  Sign takes the transaction decoded from deposit's
    result; execute takes deposit's vault and transaction identifiers
    and the signed transaction; depositInDatabase takes deposit's
    vault identifier and nothing of execute's result, whose hash goes
    to the notification only.  Exactly one notification follows, the
    success toast with the receiver username and the link built from
    the returned hash. *)
Theorem onSubmit_success
        (w : Oracle) (r : Render) (s : Store) (pk : PublicKey)
        (depositRes : DepositResponse) (tx signedTx : Transaction)
        (signed : string) (res : ExecuteResponse) :
  submit_ready r = true ->
  publicKey r = Some pk ->
  w _ (deposit (depositRequest r pk)) = Resolved depositRes ->
  Transaction_from_base64 (serializedTransaction depositRes) = inr tx ->
  w _ (wallet_signTransaction tx) = Resolved signedTx ->
  serialize_base64 signedTx = inr signed ->
  w _ (execute (executeRequest depositRes signed)) = Resolved res ->
  w _ (depositInDatabase (databaseRequest r depositRes)) = Resolved tt ->
  let submitted :=
    {| execute_vaultId := vaultId depositRes;
       execute_transactionId := transactionId depositRes;
       signedTransaction := signed |} in
  let recorded :=
    {| db_amount := amount r;
       db_vaultId := vaultId depositRes;
       discordUserId := receiverDiscordId r |} in
  let shown :=
    {| toast_title := "Transaction Confirmed";
       toast_text :=
         ("Successfully tipped @" ++ jsx_text (receiverUsername r))%string;
       toast_href := ("https://solscan.io/tx/" ++ txHash res)%string;
       toast_link := "View transaction";
       toast_duration := 10000 |} in
  run w (onSubmit r) s =
  (perform (setLoading false) (perform (setLoading true) s),
   [ EvDo (setLoading true);
     EvCall (deposit (depositRequest r pk));
     EvSettle (deposit (depositRequest r pk)) (Resolved depositRes);
     EvCall (wallet_signTransaction tx);
     EvSettle (wallet_signTransaction tx) (Resolved signedTx);
     EvCall (execute submitted);
     EvSettle (execute submitted) (Resolved res);
     EvCall (depositInDatabase recorded);
     EvSettle (depositInDatabase recorded) (Resolved tt);
     EvDo (toast shown);
     EvDo (setLoading false) ],
   inr tt)
  /\ filter is_notification (trace_of (run w (onSubmit r) s))
     = [EvDo (toast shown)].
Proof.
  intros Hready Hpk H1 H2 H3 H4 H5 H6 submitted recorded shown.
  destruct (onSubmit_ready r Hready) as (pk' & Hpk' & ->).
  assert (pk' = pk) by congruence. subst pk'.
  rewrite (submit_success_run w r pk s _ _ _ _ _ H1 H2 H3 H4 H5 H6).
  split; reflexivity.
Qed.

(** C2: when the preconditions hold and one of the four awaited
    steps rejects, [onSubmit] makes no call after the rejected one,
    shows exactly one notification, the generic failure toast, and
    leaves [loading] false when it returns. *)
Theorem onSubmit_failure (w : Oracle) (r : Render) (s : Store) :
  submit_ready r = true ->
  existsb is_rejection (trace_of (run w (onSubmit r) s)) = true ->
  filter is_call (after_rejection (trace_of (run w (onSubmit r) s))) = []
  /\ filter is_notification (trace_of (run w (onSubmit r) s))
     = [EvDo (toast_error submit_failed)]
  /\ loading (store_of (run w (onSubmit r) s)) = false.
Proof.
  intros Hready.
  destruct (onSubmit_ready r Hready) as (pk & Hpk & ->).
  unfold trace_of, store_of, submit_try, await, act.
  repeat settle_next w; cbn; intros H; try discriminate;
    repeat split; reflexivity.
Qed.

(** C5: when a precondition fails (no connection, no public key, no
    signer, or a receiver identifier that is absent or empty),
    [onSubmit] logs one message and returns: no call is made, nothing
    is written to the component state, no notification is shown, and
    the store is as it was. *)
Theorem onSubmit_precondition (r : Render) :
  connection r = None \/ publicKey r = None \/ signTransaction r = None
  \/ ToBoolean (receiverDiscordId r) = false ->
  exists msg,
    (msg = connect_wallet_msg \/ msg = receiver_required_msg)
    /\ forall s,
        advance (onSubmit r) s = (s, [console_log msg], Done tt)
        /\ forall w, run w (onSubmit r) s
                     = (s, [EvDo (console_log msg)], inr tt).
Proof.
  intros H.
  assert (Hready : submit_ready r = false).
  { unfold submit_ready.
    destruct H as [-> | [-> | [-> | ->]]]; cbn;
      rewrite ?andb_false_r; reflexivity. }
  destruct (onSubmit_not_ready r Hready) as (msg & Hmsg & ->).
  exists msg. split; [exact Hmsg |]. intros s. split; reflexivity.
Qed.

(** C9: [onSubmit] has no re-entrancy check.  What it calls and shows
    is the same from every store, whatever [loading] and the in-flight
    flag hold; and when the preconditions hold, an invocation started
    in any configuration, also one where earlier submits are still
    suspended, sets [loading] and suspends on its own [deposit] call
    next to them.  From there it goes on through the subsequent steps
    whatever the store holds when each answer arrives: resumed with
    deposit's result it calls the wallet, then [execute], then
    [depositInDatabase], and ends with the success toast; run alone
    from any store against collaborators that succeed, it calls all
    four steps. *)
Theorem onSubmit_reentrant (r : Render) (pk : PublicKey) :
  submit_ready r = true ->
  publicKey r = Some pk ->
  (forall w s1 s2,
      trace_of (run w (onSubmit r) s1) = trace_of (run w (onSubmit r) s2))
  /\ (forall w s, exists rest,
         trace_of (run w (onSubmit r) s)
         = EvDo (setLoading true)
             :: EvCall (deposit (depositRequest r pk)) :: rest)
  /\ (forall cfg, exists k,
         launch (onSubmit r) (store cfg) (pending cfg) (output cfg)
         = {| store := perform (setLoading true) (store cfg);
              pending :=
                pending cfg ++ [Pend (deposit (depositRequest r pk)) k];
              output := output cfg ++ [setLoading true] |}
         /\ forall s1 depositRes tx,
             Transaction_from_base64 (serializedTransaction depositRes)
             = inr tx ->
             exists k2,
               advance (k (Resolved depositRes)) s1
               = (s1, [], Suspended (wallet_signTransaction tx) k2)
               /\ forall s2 signedTx signed,
                   serialize_base64 signedTx = inr signed ->
                   exists k3,
                     advance (k2 (Resolved signedTx)) s2
                     = (s2, [],
                        Suspended (execute (executeRequest depositRes signed))
                                  k3)
                     /\ forall s3 res,
                         exists k4,
                           advance (k3 (Resolved res)) s3
                           = (s3, [],
                              Suspended
                                (depositInDatabase
                                   (databaseRequest r depositRes)) k4)
                           /\ forall s4,
                               advance (k4 (Resolved tt)) s4
                               = (perform (setLoading false) s4,
                                  [toast (successToast r res);
                                   setLoading false],
                                  Done tt))
  /\ (forall (w : Oracle) s depositRes tx signedTx signed res,
         w _ (deposit (depositRequest r pk)) = Resolved depositRes ->
         Transaction_from_base64 (serializedTransaction depositRes)
         = inr tx ->
         w _ (wallet_signTransaction tx) = Resolved signedTx ->
         serialize_base64 signedTx = inr signed ->
         w _ (execute (executeRequest depositRes signed)) = Resolved res ->
         w _ (depositInDatabase (databaseRequest r depositRes))
         = Resolved tt ->
         steps_called (trace_of (run w (onSubmit r) s))
         = [StepDeposit; StepSign; StepExecute; StepRecord]).
Proof.
  intros Hready Hpk. split; [| split; [| split]].
  - intros w s1 s2. apply (Quiet_run w (onSubmit r) (Quiet_onSubmit r)).
  - intros w s.
    destruct (onSubmit_ready r Hready) as (pk' & Hpk' & ->).
    assert (pk' = pk) by congruence. subst pk'.
    unfold trace_of, submit_try, await, act. cbn [run bind try_catch].
    match goal with
    | |- context [run w ?p ?s0] => destruct (run w p s0) as [[s' tr] res]
    end.
    cbn. eexists. reflexivity.
  - intros cfg.
    destruct (onSubmit_ready r Hready) as (pk' & Hpk' & ->).
    assert (pk' = pk) by congruence. subst pk'.
    eexists. split; [reflexivity |].
    intros s1 depositRes tx Htx.
    cbn [advance bind try_catch settled lift]. rewrite Htx.
    eexists. split; [reflexivity |].
    intros s2 signedTx signed Hsigned.
    cbn [advance bind try_catch settled lift]. rewrite Hsigned.
    eexists. split; [reflexivity |].
    intros s3 res. eexists. split; [reflexivity |].
    intros s4. reflexivity.
  - intros w s depositRes tx signedTx signed res H1 H2 H3 H4 H5 H6.
    destruct (onSubmit_ready r Hready) as (pk' & Hpk' & ->).
    assert (pk' = pk) by congruence. subst pk'.
    rewrite (submit_success_run w r pk s _ _ _ _ _ H1 H2 H3 H4 H5 H6).
    reflexivity.
Qed.

(** C10: when the amount parameter parses to NaN, [hasBalance()] is
    true whatever the balance, so the button is disabled by the error
    and by [loading] only; and every amount [onSubmit] hands to
    [deposit] and to [depositInDatabase] is NaN: [deposit] receives it,
    as [amount] and as [token.amount], as soon as the preconditions
    hold, and [depositInDatabase] receives it too when the steps
    before it succeed. *)
Theorem nan_amount (r : Render) :
  amount r = NaN ->
  (forall s, hasBalance r s = true)
  /\ (forall s, disabled r s
                = (negb (negb (ToBoolean (of_option_string (error s))))
                   || loading s))
  /\ (forall w s,
         Forall (fun x => x = NaN)
                (amounts_sent (trace_of (run w (onSubmit r) s))))
  /\ (submit_ready r = true ->
      forall w s, exists rest,
        amounts_sent (trace_of (run w (onSubmit r) s))
        = NaN :: NaN :: rest)
  /\ (forall (w : Oracle) s pk depositRes tx signedTx signed res,
         submit_ready r = true ->
         publicKey r = Some pk ->
         w _ (deposit (depositRequest r pk)) = Resolved depositRes ->
         Transaction_from_base64 (serializedTransaction depositRes)
         = inr tx ->
         w _ (wallet_signTransaction tx) = Resolved signedTx ->
         serialize_base64 signedTx = inr signed ->
         w _ (execute (executeRequest depositRes signed)) = Resolved res ->
         w _ (depositInDatabase (databaseRequest r depositRes))
         = Resolved tt ->
         amounts_sent (trace_of (run w (onSubmit r) s)) = [NaN; NaN; NaN]).
Proof.
  intros Hnan.
  assert (Hb : forall s, hasBalance r s = true).
  { intros s. unfold hasBalance. rewrite Hnan, js_gt_nan_l. reflexivity. }
  split; [exact Hb |]. split.
  { intros s. unfold disabled. rewrite Hb. cbn. apply orb_false_r. }
  split; [| split].
  - intros w s.
    destruct (submit_ready r) eqn:Hready.
    + destruct (onSubmit_ready r Hready) as (pk & Hpk & ->).
      unfold trace_of, submit_try, await, act, depositRequest,
        databaseRequest.
      rewrite Hnan.
      repeat settle_next w; cbn; repeat constructor.
    + destruct (onSubmit_not_ready r Hready) as (msg & _ & ->).
      cbn. constructor.
  - intros Hready w s.
    destruct (onSubmit_ready r Hready) as (pk & Hpk & ->).
    unfold trace_of, submit_try, await, act, depositRequest.
    rewrite Hnan. cbn [run bind try_catch].
    match goal with
    | |- context [run w ?p ?s0] => destruct (run w p s0) as [[s' tr] res]
    end.
    cbn. eexists. reflexivity.
  - intros w s pk depositRes tx signedTx signed res Hready Hpk
           H1 H2 H3 H4 H5 H6.
    destruct (onSubmit_ready r Hready) as (pk' & Hpk' & ->).
    assert (pk' = pk) by congruence. subst pk'.
    rewrite (submit_success_run w r pk s _ _ _ _ _ H1 H2 H3 H4 H5 H6).
    cbn. rewrite Hnan. reflexivity.
Qed.

End Submit.

Section EventLoop.
Context {P : Platform}.

(** *** The balance loader, phase by phase *)

Lemma fetch_guard_true (r : Render) (fetching : bool) :
  fetch_guard r fetching = true <->
  fetching = true \/ publicKey r = None \/ connected r = false
  \/ connection r = None.
Proof.
  unfold fetch_guard.
  destruct fetching, (publicKey r), (connected r), (connection r); cbn;
    split; intros H; try reflexivity; try discriminate; auto;
    repeat (destruct H as [H | H]; try discriminate).
Qed.

Lemma fetch_skipped (r : Render) (s : Store) :
  fetch_guard r (isFetchingRef s) = true ->
  advance (fetchTokenBalance r) s = (s, [], Done tt).
Proof. intros H. cbn. rewrite H. reflexivity. Qed.

Lemma fetch_started (r : Render) (s : Store) :
  fetch_guard r (isFetchingRef s) = false ->
  exists c owner,
    connection r = Some c /\ publicKey r = Some owner
    /\ isFetchingRef s = false
    /\ advance (fetchTokenBalance r) s
       = (fetching s,
          [setIsFetching true; setLoading true; setError None],
          Suspended (getParsedTokenAccountsByOwner c owner TOKEN_PROGRAM_ID)
                    fetch_resumed).
Proof.
  intros H. cbn. rewrite H. unfold fetch_guard in H.
  destruct (isFetchingRef s) eqn:F; [discriminate |].
  destruct (publicKey r) as [owner |]; [| discriminate].
  destruct (connection r) as [c |];
    [| destruct (connected r); discriminate].
  exists c, owner. repeat split; reflexivity.
Qed.

Lemma find_first (accounts l1 l2 : list ParsedInfo) (info : ParsedInfo) :
  accounts = l1 ++ info :: l2 ->
  (forall a, In a l1 -> info_mint a <> mintAddress) ->
  info_mint info = mintAddress ->
  find (fun account => info_mint account =? mintAddress) accounts
  = Some info.
Proof.
  intros -> Hl1 Hinfo. induction l1 as [| a l1 IH]; cbn.
  - rewrite (proj2 (String.eqb_eq _ _) Hinfo). reflexivity.
  - rewrite (proj2 (String.eqb_neq _ _) (Hl1 a (or_introl eq_refl))).
    apply IH. intros b Hb. apply Hl1. right. exact Hb.
Qed.

Lemma find_absent (accounts : list ParsedInfo) :
  (forall a, In a accounts -> info_mint a <> mintAddress) ->
  find (fun account => info_mint account =? mintAddress) accounts = None.
Proof.
  intros H. induction accounts as [| a l IH]; cbn; [reflexivity |].
  rewrite (proj2 (String.eqb_neq _ _) (H a (or_introl eq_refl))).
  apply IH. intros b Hb. apply H. right. exact Hb.
Qed.

Lemma resumed_match (accounts : list ParsedInfo) (info : ParsedInfo)
      (s : Store) :
  find (fun account => info_mint account =? mintAddress) accounts
  = Some info ->
  advance (fetch_resumed (Resolved accounts)) s
  = ({| tokenBalance :=
          Some {| tb_mint := info_mint info;
                  tb_amount := info_uiAmount info;
                  tb_decimals := info_decimals info |};
        loading := false; error := error s; isFetchingRef := false |},
     [setTokenBalance
        (Some {| tb_mint := info_mint info;
                 tb_amount := info_uiAmount info;
                 tb_decimals := info_decimals info |});
      setIsFetching false; setLoading false],
     Done tt).
Proof.
  intros H. unfold fetch_resumed, storeBalance. cbn [settled bind].
  rewrite H. reflexivity.
Qed.

Lemma resumed_no_match (accounts : list ParsedInfo) (s : Store) :
  find (fun account => info_mint account =? mintAddress) accounts = None ->
  advance (fetch_resumed (Resolved accounts)) s
  = ({| tokenBalance := None; loading := false;
        error := Some token_not_found; isFetchingRef := false |},
     [setTokenBalance None; setError (Some token_not_found);
      setIsFetching false; setLoading false],
     Done tt).
Proof.
  intros H. unfold fetch_resumed, storeBalance. cbn [settled bind].
  rewrite H. reflexivity.
Qed.

Lemma resumed_rejected (e : Exn) (s : Store) :
  advance (fetch_resumed (Rejected e)) s
  = ({| tokenBalance := tokenBalance s; loading := false;
        error := Some fetch_failed; isFetchingRef := false |},
     [console_error e; setError (Some fetch_failed);
      setIsFetching false; setLoading false],
     Done tt).
Proof. reflexivity. Qed.

(** Every way out of a resumed fetch ends the handler, clears the
    flag and leaves a well-formed error. *)
Lemma resumed_done (o : Outcome (list ParsedInfo)) (s : Store) :
  exists s' out,
    advance (fetch_resumed o) s = (s', out, Done tt)
    /\ isFetchingRef s' = false
    /\ loading s' = false
    /\ (error s' = error s \/ error s' = Some token_not_found
        \/ error s' = Some fetch_failed).
Proof.
  destruct o as [accounts | e].
  - destruct (find (fun account => info_mint account =? mintAddress)
                   accounts) as [info |] eqn:F.
    + rewrite (resumed_match _ _ s F). do 2 eexists.
      split; [reflexivity |]. cbn. auto.
    + rewrite (resumed_no_match _ s F). do 2 eexists.
      split; [reflexivity |]. cbn. auto.
  - rewrite resumed_rejected. do 2 eexists.
    split; [reflexivity |]. cbn. auto.
Qed.

(** *** The invariant *)

Lemma in_flight_split (before after : list Pending) (p : Pending) :
  List.length (filter in_flight (before ++ p :: after))
  = List.length (filter in_flight (before ++ after))
    + (if in_flight p then 1 else 0).
Proof.
  rewrite !filter_app, !length_app. cbn.
  destruct (in_flight p); cbn; lia.
Qed.

Lemma in_flight_snoc (waiting : list Pending) (p : Pending) :
  List.length (filter in_flight (waiting ++ [p]))
  = List.length (filter in_flight waiting)
    + (if in_flight p then 1 else 0).
Proof.
  rewrite (in_flight_split waiting [] p), app_nil_r. reflexivity.
Qed.

Lemma Inv_initial : Inv initialConfig.
Proof.
  constructor; cbn; auto. left. reflexivity.
Qed.

Lemma launch_quiet (p : Prog unit) (s : Store) (waiting : list Pending)
      (out out' : list Action) :
  Quiet p ->
  Inv {| store := s; pending := waiting; output := out |} ->
  Inv (launch p s waiting out').
Proof.
  intros Hq [Hp Hf He Hc]. cbn in *.
  unfold launch. pose proof (Quiet_advance p Hq s) as H.
  destruct (advance p s) as [[s' done] st].
  destruct H as (E1 & E2 & E3 & E4).
  unfold fetches_in_flight in *. cbn in *.
  constructor; cbn; rewrite ?E1, ?E2; auto.
  - destruct st as [a | e | R c k]; auto.
    apply Forall_app. split; [assumption |].
    constructor; [| constructor].
    destruct E4 as [Hc' Hk]. destruct c; cbn in *; try discriminate; auto.
  - destruct st as [a | e | R c k]; auto.
    rewrite in_flight_snoc. cbn. destruct E4 as [-> _]. lia.
Qed.

Lemma step_Inv (cfg cfg' : Config) : step cfg cfg' -> Inv cfg -> Inv cfg'.
Proof.
  intros Hstep HI. destruct Hstep as [r cfg | r cfg | cfg before after R c k o Hpend].
  - (* a fetch is triggered *)
    destruct HI as [Hp Hf He Hc]. unfold launch, fetches_in_flight in *.
    destruct (fetch_guard r (isFetchingRef (store cfg))) eqn:G.
    + rewrite (fetch_skipped r _ G). constructor; assumption.
    + destruct (fetch_started r _ G) as (c & owner & _ & _ & F & ->).
      constructor; cbn; auto.
      * apply Forall_app. split; [assumption |].
        constructor; [reflexivity | constructor].
      * rewrite in_flight_snoc, Hf, F. reflexivity.
      * left. reflexivity.
  - (* a submit is started *)
    apply launch_quiet with (out := output cfg); [apply Quiet_onSubmit |].
    destruct cfg. exact HI.
  - (* an awaited call settles *)
    destruct HI as [Hp Hf He Hc]. unfold fetches_in_flight in *.
    rewrite Hpend in Hp, Hf.
    apply Forall_app in Hp. destruct Hp as [Hb Hp].
    inversion Hp as [| ? ? Hk Ha]; subst.
    rewrite in_flight_split in Hf.
    destruct c; cbn in Hk, Hf.
    + (* the balance fetch *)
      subst k.
      destruct (isFetchingRef (store cfg)) eqn:F; [| lia].
      unfold launch.
      destruct (resumed_done o (store cfg)) as (s' & out & -> & F' & _ & E).
      constructor; cbn.
      * apply Forall_app. split; assumption.
      * unfold fetches_in_flight. cbn. rewrite F'. lia.
      * unfold error_ok in *.
        destruct E as [-> | [-> | ->]]; auto.
      * rewrite F'. discriminate.
    + apply launch_quiet with (out := output cfg); [apply Hk |].
      constructor; cbn; auto.
      * apply Forall_app. split; assumption.
      * unfold fetches_in_flight. cbn. lia.
    + apply launch_quiet with (out := output cfg); [apply Hk |].
      constructor; cbn; auto.
      * apply Forall_app. split; assumption.
      * unfold fetches_in_flight. cbn. lia.
    + apply launch_quiet with (out := output cfg); [apply Hk |].
      constructor; cbn; auto.
      * apply Forall_app. split; assumption.
      * unfold fetches_in_flight. cbn. lia.
    + apply launch_quiet with (out := output cfg); [apply Hk |].
      constructor; cbn; auto.
      * apply Forall_app. split; assumption.
      * unfold fetches_in_flight. cbn. lia.
Qed.

Lemma reachable_Inv (cfg : Config) : reachable cfg -> Inv cfg.
Proof.
  induction 1 as [| cfg cfg' _ IH Hstep];
    [apply Inv_initial | exact (step_Inv cfg cfg' Hstep IH)].
Qed.

End EventLoop.

Section Balance.
Context {P : Platform}.

(** C4: in every state the component can reach, the submit button is
    disabled if and only if [error] is non-null, or [loading] is true,
    or [hasBalance()] is false. *)
Theorem disabled_iff (cfg : Config) (r : Render) :
  reachable cfg ->
  disabled r (store cfg) = true <->
  error (store cfg) <> None \/ loading (store cfg) = true
  \/ hasBalance r (store cfg) = false.
Proof.
  intros Hreach. destruct (reachable_Inv cfg Hreach) as [_ _ He _].
  unfold disabled.
  rewrite negb_involutive, !orb_true_iff, negb_true_iff.
  assert (Herr : ToBoolean (of_option_string (error (store cfg))) = true
                 <-> error (store cfg) <> None).
  { destruct He as [-> | [-> | ->]]; cbn; split; intros H;
      congruence. }
  rewrite Herr. tauto.
Qed.

(** C6: at most one balance fetch is in flight.  In every reachable
    configuration at most one fetch is suspended, and the flag is set
    exactly while one is; an invocation made while the flag is set, or
    without public key, connected wallet or connection, returns at
    once, fetches nothing and leaves the configuration as it was; an
    invocation that passes the guard sets the flag and suspends on the
    fetch; and however the fetch settles, its continuation ends with
    the flag cleared and no fetch in flight. *)
Theorem single_fetch (cfg : Config) :
  reachable cfg ->
  fetches_in_flight cfg <= 1
  /\ (isFetchingRef (store cfg) = true <-> fetches_in_flight cfg = 1)
  /\ (forall r,
         isFetchingRef (store cfg) = true \/ publicKey r = None
         \/ connected r = false \/ connection r = None ->
         advance (fetchTokenBalance r) (store cfg)
         = (store cfg, [], Done tt)
         /\ launch (fetchTokenBalance r)
                   (store cfg) (pending cfg) (output cfg) = cfg)
  /\ (forall r c owner,
         isFetchingRef (store cfg) = false ->
         publicKey r = Some owner -> connected r = true ->
         connection r = Some c ->
         let cfg' := launch (fetchTokenBalance r)
                            (store cfg) (pending cfg) (output cfg) in
         isFetchingRef (store cfg') = true
         /\ pending cfg'
            = pending cfg
              ++ [Pend (getParsedTokenAccountsByOwner c owner
                                                      TOKEN_PROGRAM_ID)
                       fetch_resumed])
  /\ (forall before after c owner programId k o,
         pending cfg
         = before
           ++ Pend (getParsedTokenAccountsByOwner c owner programId) k
           :: after ->
         let cfg' := launch (k o) (store cfg) (before ++ after)
                            (output cfg) in
         isFetchingRef (store cfg') = false
         /\ fetches_in_flight cfg' = 0).
Proof.
  intros Hreach. pose proof (reachable_Inv cfg Hreach) as HI.
  destruct HI as [Hp Hf He Hc].
  split; [| split; [| split; [| split]]].
  - rewrite Hf. destruct (isFetchingRef (store cfg)); lia.
  - rewrite Hf. destruct (isFetchingRef (store cfg)); split; intros H;
      try reflexivity; try discriminate; lia.
  - intros r Hg. apply fetch_guard_true in Hg.
    unfold launch. rewrite (fetch_skipped r _ Hg).
    split; [reflexivity |]. destruct cfg; cbn. rewrite app_nil_r.
    reflexivity.
  - intros r c owner F Hpk Hconn Hc' cfg'.
    assert (G : fetch_guard r (isFetchingRef (store cfg)) = false).
    { unfold fetch_guard. rewrite F, Hpk, Hconn, Hc'. reflexivity. }
    destruct (fetch_started r _ G) as (c0 & owner0 & E1 & E2 & _ & E).
    assert (c0 = c) by congruence. assert (owner0 = owner) by congruence.
    subst c0 owner0. subst cfg'. unfold launch. rewrite E.
    split; reflexivity.
  - intros before after c owner programId k o Hpend cfg'.
    assert (HI' : Inv cfg').
    { apply (step_Inv cfg cfg').
      - subst cfg'. eapply step_settle. exact Hpend.
      - constructor; assumption. }
    rewrite Hpend in Hp. apply Forall_app in Hp. destruct Hp as [_ Hp].
    inversion Hp as [| ? ? Hk _]; subst. cbn in Hk. subst k.
    subst cfg'. unfold launch in *.
    destruct (resumed_done o (store cfg)) as (s' & out & E & F' & _).
    rewrite E in *. cbn. split; [exact F' |].
    destruct HI' as [_ Hf' _ _]. cbn in Hf'. rewrite F' in Hf'.
    exact Hf'.
Qed.

(** C7: when a balance fetch completes and no returned account has
    the configured mint, the stored balance is null and the error is
    the token-not-found message.  The page shows it inline: the error
    box of every form rendered from that state holds the message, next
    to a balance of 0; and the submit button is disabled, in the
    state for every request and on every such form. *)
Theorem fetch_no_match {D : Display}
        (cfg : Config) (before after : list Pending)
        (c : Connection) (owner : PublicKey) (programId : string)
        (k : Outcome (list ParsedInfo) -> Prog unit)
        (accounts : list ParsedInfo) :
  reachable cfg ->
  pending cfg
  = before ++ Pend (getParsedTokenAccountsByOwner c owner programId) k
           :: after ->
  (forall a, In a accounts -> info_mint a <> mintAddress) ->
  let cfg' := launch (k (Resolved accounts)) (store cfg) (before ++ after)
                     (output cfg) in
  tokenBalance (store cfg') = None
  /\ error (store cfg') = Some token_not_found
  /\ ToBoolean (of_option_string (error (store cfg'))) = true
  /\ (forall r, disabled r (store cfg') = true)
  /\ errorChild (store cfg') = Some token_not_found
  /\ forall r wallet,
      connected r = true ->
      walletChild r = inr wallet ->
      exists f,
        render r (store cfg') = inr (Form f)
        /\ form_error f = Some token_not_found
        /\ form_balance f = num zero
        /\ form_disabled f = true.
Proof.
  intros Hreach Hpend Hnone cfg'.
  destruct (reachable_Inv cfg Hreach) as [Hp _ _ _].
  rewrite Hpend in Hp. apply Forall_app in Hp. destruct Hp as [_ Hp].
  inversion Hp as [| ? ? Hk _]; subst. cbn in Hk. subst k.
  subst cfg'. unfold launch.
  rewrite (resumed_no_match accounts _ (find_absent accounts Hnone)).
  cbn [store].
  split; [reflexivity |]. split; [reflexivity |]. split; [reflexivity |].
  assert (Hd : forall r,
             disabled r {| tokenBalance := None; loading := false;
                           error := Some token_not_found;
                           isFetchingRef := false |} = true)
    by (intros r; reflexivity).
  split; [exact Hd |]. split; [reflexivity |].
  intros r wallet Hconn Hwallet.
  unfold render. rewrite Hconn, Hwallet. cbn [negb balanceChild tokenBalance].
  eexists. split; [reflexivity |].
  cbn [form_error form_balance form_disabled].
  split; [reflexivity |]. split; [reflexivity | exact (Hd r)].
Qed.

(** C8: when a balance fetch completes and some returned account has
    the configured mint, the stored balance takes its mint, its
    [uiAmount] and its [decimals] from the first such account, and
    the error is null. *)
Theorem fetch_match (cfg : Config) (before after : list Pending)
        (c : Connection) (owner : PublicKey) (programId : string)
        (k : Outcome (list ParsedInfo) -> Prog unit)
        (accounts earlier later : list ParsedInfo) (info : ParsedInfo) :
  reachable cfg ->
  pending cfg
  = before ++ Pend (getParsedTokenAccountsByOwner c owner programId) k
           :: after ->
  accounts = earlier ++ info :: later ->
  (forall a, In a earlier -> info_mint a <> mintAddress) ->
  info_mint info = mintAddress ->
  let cfg' := launch (k (Resolved accounts)) (store cfg) (before ++ after)
                     (output cfg) in
  tokenBalance (store cfg')
  = Some {| tb_mint := info_mint info;
            tb_amount := info_uiAmount info;
            tb_decimals := info_decimals info |}
  /\ error (store cfg') = None.
Proof.
  intros Hreach Hpend Hacc Hearlier Hinfo cfg'.
  destruct (reachable_Inv cfg Hreach) as [Hp Hf _ Hc].
  unfold fetches_in_flight in Hf.
  rewrite Hpend in Hp, Hf. rewrite in_flight_split in Hf. cbn in Hf.
  apply Forall_app in Hp. destruct Hp as [_ Hp].
  inversion Hp as [| ? ? Hk _]; subst. cbn in Hk. subst k.
  assert (F : isFetchingRef (store cfg) = true).
  { destruct (isFetchingRef (store cfg)); [reflexivity | lia]. }
  subst cfg'. unfold launch.
  rewrite (resumed_match _ info _
             (find_first _ earlier later info eq_refl Hearlier Hinfo)).
  cbn. split; [reflexivity | exact (Hc F)].
Qed.

End Balance.


(** * The life cycle of the page *)

Section Lifecycle.
Context {P : Platform}.

(** Take the next case of whatever the goal is stuck on. *)
Ltac next_case :=
  cbn;
  match goal with
  | |- forall _, _ => intro
  | o : Outcome _ |- _ => destruct o
  | |- context [lift ?x] => destruct x
  | |- context [match ?x with _ => _ end] => destruct x
  | |- _ = _ => reflexivity
  end.

(** *** Tidy handlers *)

Lemma tidy_advance {A : Type} (p : Prog A) :
  forall known s,
    tidy known p ->
    let '(s', _, st) := advance p s in
    match st with
    | Done _ =>
        loading s' = false \/ (known = true /\ loading s' = loading s)
    | Failed _ => False
    | Suspended c k => forall o, tidy false (k o)
    end.
Proof.
  induction p as [a | e | k IH | a k IH | R c k _]; intros known s H; cbn in *.
  - right. split; [exact H | reflexivity].
  - exact H.
  - apply IH. apply H.
  - specialize (IH _ (perform a s) H).
    destruct (advance k (perform a s)) as [[s' out] st].
    destruct st as [b | e | R c k']; auto.
    destruct IH as [IH | [Hk IH]]; [left; exact IH |].
    destruct a as [tb | v | err | v | msg | err | body | msg]; cbn in *;
      try (right; split; assumption).
    destruct v; cbn in Hk; [discriminate | left; exact IH].
  - exact H.
Qed.

Lemma tidy_run {A : Type} (w : Oracle) (p : Prog A) :
  forall known s,
    tidy known p ->
    (exists a, snd (run w p s) = inr a)
    /\ (loading (store_of (run w p s)) = false
        \/ (known = true /\ loading (store_of (run w p s)) = loading s)).
Proof.
  unfold store_of.
  induction p as [a | e | k IH | a k IH | R c k IH]; intros known s H;
    cbn in *.
  - split; [exists a; reflexivity | right; split; [exact H | reflexivity]].
  - destruct H.
  - apply IH. apply H.
  - specialize (IH _ (perform a s) H).
    destruct (run w k (perform a s)) as [[s' tr] res]. cbn in *.
    destruct IH as [Hres [IH | [Hk IH]]]; split; auto.
    destruct a as [tb | v | err | v | msg | err | body | msg]; cbn in *;
      try (right; split; assumption).
    destruct v; cbn in Hk; [discriminate | left; exact IH].
  - specialize (IH (w R c) false s (H (w R c))).
    destruct (run w (k (w R c)) s) as [[s' tr] res]. cbn in *.
    destruct IH as [Hres [IH | [Hk _]]]; [| discriminate].
    split; [exact Hres | left; exact IH].
Qed.

Lemma tidy_fetch_resumed (o : Outcome (list ParsedInfo)) :
  tidy false (fetch_resumed o).
Proof.
  unfold fetch_resumed, storeBalance. destruct o as [accounts | e]; cbn.
  - destruct (find _ accounts); reflexivity.
  - reflexivity.
Qed.

Lemma tidy_fetch (r : Render) : tidy true (fetchTokenBalance r).
Proof.
  cbn. intros b. destruct (fetch_guard r b); [reflexivity |].
  destruct (publicKey r); [| reflexivity].
  destruct (connection r); [| reflexivity].
  cbn. exact tidy_fetch_resumed.
Qed.

Lemma tidy_submit (r : Render) : tidy true (onSubmit r).
Proof.
  unfold onSubmit.
  destruct (connection r), (publicKey r), (signTransaction r);
    try reflexivity.
  destruct (negb _); [reflexivity |].
  unfold submit_try, await, act. repeat next_case.
Qed.

End Lifecycle.

Section PageInvariant.
Context {P : Platform}.

Lemma launch_tidy (p : Prog unit) (known : bool) (s : Store)
      (waiting : list Pending) (out : list Action) :
  tidy known p ->
  Forall pending_tidy waiting ->
  (known = true -> waiting = [] -> loading s = false) ->
  Forall pending_tidy (pending (launch p s waiting out))
  /\ (pending (launch p s waiting out) = [] ->
      loading (store (launch p s waiting out)) = false).
Proof.
  intros Hp Hw Hs. unfold launch.
  pose proof (tidy_advance p known s Hp) as H.
  destruct (advance p s) as [[s' done] st].
  destruct st as [a | e | R c k]; cbn.
  - split; [exact Hw |]. intros E.
    destruct H as [H | [Hk H]]; [exact H |]. rewrite H. auto.
  - destruct H.
  - split.
    + apply Forall_app. split; [exact Hw |]. constructor; [exact H | constructor].
    + intros E. destruct waiting; discriminate E.
Qed.

Lemma launch_quiet_store (p : Prog unit) (s : Store)
      (waiting : list Pending) (out : list Action) :
  Quiet p ->
  tokenBalance (store (launch p s waiting out)) = tokenBalance s
  /\ error (store (launch p s waiting out)) = error s
  /\ isFetchingRef (store (launch p s waiting out)) = isFetchingRef s.
Proof.
  intros Hq. unfold launch. pose proof (Quiet_advance p Hq s) as H.
  destruct (advance p s) as [[s' done] st]. cbn.
  destruct H as (E1 & E2 & E3 & _). auto.
Qed.

Lemma resumed_page (o : Outcome (list ParsedInfo)) (s : Store)
      (waiting : list Pending) (out : list Action) :
  (forall tb, tokenBalance s = Some tb -> tb_mint tb = mintAddress) ->
  error s = None ->
  (forall tb,
      tokenBalance (store (launch (fetch_resumed o) s waiting out)) = Some tb ->
      tb_mint tb = mintAddress)
  /\ (error (store (launch (fetch_resumed o) s waiting out))
      = Some token_not_found ->
      tokenBalance (store (launch (fetch_resumed o) s waiting out)) = None).
Proof.
  intros Hm He. unfold launch. destruct o as [accounts | e].
  - destruct (find (fun account => info_mint account =? mintAddress) accounts)
      as [info |] eqn:F.
    + rewrite (resumed_match _ _ s F). cbn. split.
      * intros tb [= <-]. cbn. apply find_some in F.
        apply String.eqb_eq. exact (proj2 F).
      * rewrite He. discriminate.
    + rewrite (resumed_no_match _ s F). cbn. split; [discriminate | reflexivity].
  - rewrite resumed_rejected. cbn. split; [exact Hm | discriminate].
Qed.

Lemma PageInv_initial : PageInv initialConfig.
Proof. constructor; cbn; auto; discriminate. Qed.

Lemma step_PageInv (cfg cfg' : Config) :
  step cfg cfg' -> Inv cfg -> PageInv cfg -> PageInv cfg'.
Proof.
  intros Hstep [Hp Hf He Hc] [Hm Hn Hi Ht].
  destruct Hstep as [r cfg | r cfg | cfg before after R c k o Hpend].
  - (* a fetch is triggered *)
    destruct (launch_tidy _ true (store cfg) (pending cfg) (output cfg)
                          (tidy_fetch r) Ht (fun _ => Hi)) as [T1 T2].
    constructor; [| | exact T2 | exact T1]; unfold launch.
    + destruct (fetch_guard r (isFetchingRef (store cfg))) eqn:G.
      * rewrite (fetch_skipped r _ G). exact Hm.
      * destruct (fetch_started r _ G) as (c & owner & _ & _ & _ & ->).
        exact Hm.
    + destruct (fetch_guard r (isFetchingRef (store cfg))) eqn:G.
      * rewrite (fetch_skipped r _ G). exact Hn.
      * destruct (fetch_started r _ G) as (c & owner & _ & _ & _ & ->).
        discriminate.
  - (* a submit is started *)
    destruct (launch_tidy _ true (store cfg) (pending cfg) (output cfg)
                          (tidy_submit r) Ht (fun _ => Hi)) as [T1 T2].
    destruct (launch_quiet_store (onSubmit r) (store cfg) (pending cfg)
                                 (output cfg) (Quiet_onSubmit r))
      as (E1 & E2 & _).
    constructor; [| | exact T2 | exact T1]; rewrite ?E1, ?E2; assumption.
  - (* an awaited call settles *)
    rewrite Hpend in Hp, Ht. unfold fetches_in_flight in Hf.
    rewrite Hpend, in_flight_split in Hf.
    apply Forall_app in Hp. destruct Hp as [Hpb Hp].
    inversion Hp as [| ? ? Hk Hpa]; subst.
    apply Forall_app in Ht. destruct Ht as [Htb Ht].
    inversion Ht as [| ? ? Hkt Hta]; subst.
    assert (Hw : Forall pending_tidy (before ++ after)).
    { apply Forall_app. split; assumption. }
    destruct (launch_tidy (k o) false (store cfg) (before ++ after)
                          (output cfg) (Hkt o) Hw)
      as [T1 T2]; [discriminate |].
    assert (Hquiet :
              Quiet (k o) ->
              PageInv (launch (k o) (store cfg) (before ++ after) (output cfg))).
    { intros Hq.
      destruct (launch_quiet_store (k o) (store cfg) (before ++ after)
                                   (output cfg) Hq) as (E1 & E2 & _).
      constructor; [| | exact T2 | exact T1]; rewrite ?E1, ?E2; assumption. }
    destruct c; cbn in Hk, Hf; try (apply Hquiet; apply Hk).
    subst k.
    assert (F : isFetchingRef (store cfg) = true).
    { destruct (isFetchingRef (store cfg)); [reflexivity | lia]. }
    destruct (resumed_page o (store cfg) (before ++ after) (output cfg)
                           Hm (Hc F)) as [M N].
    constructor; [exact M | exact N | exact T2 | exact T1].
Qed.

Lemma reachable_PageInv (cfg : Config) : reachable cfg -> PageInv cfg.
Proof.
  induction 1 as [| cfg cfg' Hreach IH Hstep]; [apply PageInv_initial |].
  exact (step_PageInv cfg cfg' Hstep (reachable_Inv cfg Hreach) IH).
Qed.

End PageInvariant.

Section PageProperties.
Context {P : Platform}.

Ltac settle_case w :=
  cbn [run bind try_catch settled lift];
  match goal with
  | |- context [w ?R ?c] => destruct (w R c) as [? | ?] eqn:?
  | |- context [Transaction_from_base64 ?x] =>
      destruct (Transaction_from_base64 x) as [? | ?] eqn:?
  | |- context [serialize_base64 ?x] =>
      destruct (serialize_base64 x) as [? | ?] eqn:?
  end.

(** X1: the stored balance is always a balance of the configured
    mint: in every reachable state, a non-null [tokenBalance] carries
    [mintAddress] as its mint. *)
Theorem stored_mint (cfg : Config) (tb : TokenBalance) :
  reachable cfg ->
  tokenBalance (store cfg) = Some tb ->
  tb_mint tb = mintAddress.
Proof.
  intros Hreach. exact (page_mint cfg (reachable_PageInv cfg Hreach) tb).
Qed.

(** X2: the token-not-found message never stands next to a balance:
    in every reachable state where it is the error, the stored balance
    is null and counts as 0. *)
Theorem not_found_no_balance (cfg : Config) :
  reachable cfg ->
  error (store cfg) = Some token_not_found ->
  tokenBalance (store cfg) = None /\ fetchedBalance (store cfg) = zero.
Proof.
  intros Hreach He.
  pose proof (page_not_found cfg (reachable_PageInv cfg Hreach) He) as H.
  split; [exact H |]. unfold fetchedBalance. rewrite H. reflexivity.
Qed.

(** X3: [loading] never sticks: in every reachable state in which no
    handler is suspended, [loading] is false and the in-flight flag is
    clear, so only the error and the balance can disable the button. *)
Theorem idle_not_loading (cfg : Config) :
  reachable cfg ->
  pending cfg = [] ->
  loading (store cfg) = false
  /\ isFetchingRef (store cfg) = false
  /\ forall r,
      disabled r (store cfg)
      = (ToBoolean (of_option_string (error (store cfg)))
         || negb (hasBalance r (store cfg))).
Proof.
  intros Hreach Hp.
  pose proof (page_idle cfg (reachable_PageInv cfg Hreach) Hp) as Hl.
  destruct (reachable_Inv cfg Hreach) as [_ Hf _ _].
  unfold fetches_in_flight in Hf. rewrite Hp in Hf. cbn in Hf.
  split; [exact Hl |]. split.
  - destruct (isFetchingRef (store cfg)); [discriminate | reflexivity].
  - intros r. unfold disabled. rewrite Hl, negb_involutive, orb_false_r.
    reflexivity.
Qed.

(** X4: while a balance fetch is in flight no error is stored: the
    previous error is cleared when the fetch starts and nothing writes
    one before it settles. *)
Theorem fetching_no_error (cfg : Config) :
  reachable cfg ->
  isFetchingRef (store cfg) = true ->
  error (store cfg) = None.
Proof.
  intros Hreach. exact (inv_clear cfg (reachable_Inv cfg Hreach)).
Qed.

(** X5: when the balance fetch is rejected, the handler logs the
    exception, keeps the balance stored before, sets the generic fetch
    error, clears [loading], and the button is disabled for every
    request. *)
Theorem fetch_rejected (cfg : Config) (before after : list Pending)
        (c : Connection) (owner : PublicKey) (programId : string)
        (k : Outcome (list ParsedInfo) -> Prog unit) (e : Exn) :
  reachable cfg ->
  pending cfg
  = before ++ Pend (getParsedTokenAccountsByOwner c owner programId) k
           :: after ->
  let cfg' := launch (k (Rejected e)) (store cfg) (before ++ after)
                     (output cfg) in
  tokenBalance (store cfg') = tokenBalance (store cfg)
  /\ error (store cfg') = Some fetch_failed
  /\ loading (store cfg') = false
  /\ (forall r, disabled r (store cfg') = true)
  /\ output cfg'
     = output cfg ++ [console_error e; setError (Some fetch_failed);
                      setIsFetching false; setLoading false].
Proof.
  intros Hreach Hpend cfg'.
  destruct (reachable_Inv cfg Hreach) as [Hp _ _ _].
  rewrite Hpend in Hp. apply Forall_app in Hp. destruct Hp as [_ Hp].
  inversion Hp as [| ? ? Hk _]; subst. cbn in Hk. subst k.
  subst cfg'. unfold launch. rewrite resumed_rejected. cbn.
  repeat split; reflexivity.
Qed.

(** X6: neither handler ever rejects: whatever the collaborators
    answer and whatever the store holds, [onSubmit] and
    [fetchTokenBalance] return normally. *)
Theorem handlers_never_reject (w : Oracle) (r : Render) (s : Store) :
  snd (run w (onSubmit r) s) = inr tt
  /\ snd (run w (fetchTokenBalance r) s) = inr tt.
Proof.
  split.
  - destruct (tidy_run w (onSubmit r) true s (tidy_submit r))
      as [[[] H] _]. exact H.
  - destruct (tidy_run w (fetchTokenBalance r) true s (tidy_fetch r))
      as [[[] H] _]. exact H.
Qed.

Lemma Quiet_run_store {A : Type} (w : Oracle) (p : Prog A) :
  Quiet p ->
  forall s,
    tokenBalance (store_of (run w p s)) = tokenBalance s
    /\ error (store_of (run w p s)) = error s
    /\ isFetchingRef (store_of (run w p s)) = isFetchingRef s.
Proof.
  unfold store_of.
  induction 1 as [a | e | a k Ha Hk IH | R c k Hc Hk IH]; intros s;
    cbn; auto.
  - specialize (IH (perform a s)).
    destruct (run w k (perform a s)) as [[s' tr] res]. cbn in *.
    destruct (quiet_perform a s Ha) as (E1 & E2 & E3).
    destruct IH as (I1 & I2 & I3).
    split; [congruence |]. split; congruence.
  - specialize (IH (w _ c) s).
    destruct (run w (k (w _ c)) s) as [[s' tr] res]. exact IH.
Qed.

(** X7: a submit never touches the balance, the inline error or the
    in-flight flag, whether it succeeds or fails: a failed submit shows
    its toast and leaves the inline error as it was. *)
Theorem onSubmit_keeps (w : Oracle) (r : Render) (s : Store) :
  tokenBalance (store_of (run w (onSubmit r) s)) = tokenBalance s
  /\ error (store_of (run w (onSubmit r) s)) = error s
  /\ isFetchingRef (store_of (run w (onSubmit r) s)) = isFetchingRef s
  /\ forall r',
      hasBalance r' (store_of (run w (onSubmit r) s)) = hasBalance r' s.
Proof.
  destruct (Quiet_run_store w (onSubmit r) (Quiet_onSubmit r) s)
    as (E1 & E2 & E3).
  repeat split; try assumption.
  intros r'. unfold hasBalance, balanceAmount. rewrite E1. reflexivity.
Qed.

(** X8: every submit whose preconditions hold ends with [loading]
    false and exactly one notification, whatever fails, the decoding
    of the transaction and its serialization included; the steps it
    called are an initial part of deposit, sign, execute, record. *)
Theorem onSubmit_one_notification (w : Oracle) (r : Render) (s : Store) :
  submit_ready r = true ->
  loading (store_of (run w (onSubmit r) s)) = false
  /\ (exists n,
         filter is_notification (trace_of (run w (onSubmit r) s)) = [n])
  /\ exists rest,
      steps_called (trace_of (run w (onSubmit r) s)) ++ rest
      = [StepDeposit; StepSign; StepExecute; StepRecord].
Proof.
  intros Hready.
  destruct (onSubmit_ready r Hready) as (pk & Hpk & ->).
  unfold trace_of, store_of, submit_try, await, act.
  repeat settle_case w; cbn;
    (split; [reflexivity |]; split; eexists; reflexivity).
Qed.

(** X9: the success toast is shown exactly when all four steps were
    called and none was rejected; in particular never before
    [depositInDatabase] has resolved. *)
Theorem success_iff_all_steps (w : Oracle) (r : Render) (s : Store) :
  submit_ready r = true ->
  existsb is_success (trace_of (run w (onSubmit r) s)) = true <->
  steps_called (trace_of (run w (onSubmit r) s))
  = [StepDeposit; StepSign; StepExecute; StepRecord]
  /\ existsb is_rejection (trace_of (run w (onSubmit r) s)) = false.
Proof.
  intros Hready.
  destruct (onSubmit_ready r Hready) as (pk & Hpk & ->).
  unfold trace_of, submit_try, await, act.
  repeat settle_case w; cbn; split;
    try (intros H; discriminate H);
    try (intros [H1 H2]; discriminate);
    try (intros _; split; reflexivity);
    try (intros _; reflexivity).
Qed.

(** X10: when the transaction returned by [deposit] cannot be decoded,
    the wallet is never asked to sign and nothing is executed or
    recorded: the run is the deposit call followed by the failure
    toast. *)
Theorem undecodable_transaction
        (w : Oracle) (r : Render) (s : Store) (pk : PublicKey)
        (depositRes : DepositResponse) (e : Exn) :
  submit_ready r = true ->
  publicKey r = Some pk ->
  w _ (deposit (depositRequest r pk)) = Resolved depositRes ->
  Transaction_from_base64 (serializedTransaction depositRes) = inl e ->
  run w (onSubmit r) s =
  (perform (setLoading false) (perform (setLoading true) s),
   [ EvDo (setLoading true);
     EvCall (deposit (depositRequest r pk));
     EvSettle (deposit (depositRequest r pk)) (Resolved depositRes);
     EvDo (setLoading false);
     EvDo (toast_error submit_failed) ],
   inr tt).
Proof.
  intros Hready Hpk H1 H2.
  destruct (onSubmit_ready r Hready) as (pk' & Hpk' & ->).
  assert (pk' = pk) by congruence. subst pk'.
  unfold submit_try, await, act.
  cbn [run bind try_catch settled lift]. rewrite H1.
  cbn [run bind try_catch settled lift]. rewrite H2.
  reflexivity.
Qed.

(** X11: when the signed transaction cannot be serialized, [execute]
    and [depositInDatabase] are never called: the run stops after the
    wallet's answer with the failure toast. *)
Theorem unserializable_transaction
        (w : Oracle) (r : Render) (s : Store) (pk : PublicKey)
        (depositRes : DepositResponse) (tx signedTx : Transaction)
        (e : Exn) :
  submit_ready r = true ->
  publicKey r = Some pk ->
  w _ (deposit (depositRequest r pk)) = Resolved depositRes ->
  Transaction_from_base64 (serializedTransaction depositRes) = inr tx ->
  w _ (wallet_signTransaction tx) = Resolved signedTx ->
  serialize_base64 signedTx = inl e ->
  run w (onSubmit r) s =
  (perform (setLoading false) (perform (setLoading true) s),
   [ EvDo (setLoading true);
     EvCall (deposit (depositRequest r pk));
     EvSettle (deposit (depositRequest r pk)) (Resolved depositRes);
     EvCall (wallet_signTransaction tx);
     EvSettle (wallet_signTransaction tx) (Resolved signedTx);
     EvDo (setLoading false);
     EvDo (toast_error submit_failed) ],
   inr tt).
Proof.
  intros Hready Hpk H1 H2 H3 H4.
  destruct (onSubmit_ready r Hready) as (pk' & Hpk' & ->).
  assert (pk' = pk) by congruence. subst pk'.
  unfold submit_try, await, act.
  cbn [run bind try_catch settled lift]. rewrite H1.
  cbn [run bind try_catch settled lift]. rewrite H2.
  cbn [run bind try_catch settled lift]. rewrite H3.
  cbn [run bind try_catch settled lift]. rewrite H4.
  reflexivity.
Qed.

End PageProperties.

Section Interleaving.
Context {P : Platform}.

Lemma launch_fetch_started (r : Render) (s : Store)
      (waiting : list Pending) (out : list Action) :
  fetch_guard r (isFetchingRef s) = false ->
  exists c owner,
    launch (fetchTokenBalance r) s waiting out
    = {| store := fetching s;
         pending :=
           waiting ++ [Pend (getParsedTokenAccountsByOwner
                               c owner TOKEN_PROGRAM_ID) fetch_resumed];
         output :=
           out ++ [setIsFetching true; setLoading true; setError None] |}.
Proof.
  intros G. destruct (fetch_started r s G) as (c & owner & _ & _ & _ & E).
  exists c, owner. unfold launch. rewrite E. reflexivity.
Qed.

Lemma launch_submit_ready (r : Render) (pk : PublicKey) (s : Store)
      (waiting : list Pending) (out : list Action) :
  submit_ready r = true ->
  publicKey r = Some pk ->
  exists k,
    launch (onSubmit r) s waiting out
    = {| store := perform (setLoading true) s;
         pending := waiting ++ [Pend (deposit (depositRequest r pk)) k];
         output := out ++ [setLoading true] |}.
Proof.
  intros Hready Hpk.
  destruct (onSubmit_ready r Hready) as (pk' & Hpk' & ->).
  assert (pk' = pk) by congruence. subst pk'.
  eexists. reflexivity.
Qed.

(** Every state the user can drive the page to is a state of the event
    loop, so what holds of all of these holds of the page. *)
Lemma page_reachable_loop {D : Display} (pg : Page) :
  page_reachable pg -> reachable (config pg).
Proof.
  induction 1 as [r | pg pg' Hreach IH Hstep].
  - apply (reach_step initialConfig);
      [apply reach_init | exact (step_fetch r initialConfig)].
  - destruct Hstep as [pg r' | pg Hclick | pg before after R c k o Hpend];
      cbn [config].
    + destruct (deps_changed (current pg) r'); [| exact IH].
      apply (reach_step _ _ IH). apply step_fetch.
    + apply (reach_step _ _ IH). apply step_submit.
    + apply (reach_step _ _ IH). eapply step_settle. exact Hpend.
Qed.

Lemma then_settle {D : Display} (pg : Page) (before after : list Pending)
      (R : Type) (c : Call R) (k : Outcome R -> Prog unit) (o : Outcome R) :
  page_reachable pg ->
  pending (config pg) = before ++ Pend c k :: after ->
  page_reachable
    {| current := current pg;
       config := launch (k o) (store (config pg)) (before ++ after)
                        (output (config pg)) |}.
Proof.
  intros Hreach Hpend. apply (page_then _ _ Hreach).
  exact (page_settle pg before after R c k o Hpend).
Qed.

Lemma then_click {D : Display} (pg : Page) :
  page_reachable pg ->
  clickable (current pg) (store (config pg)) = true ->
  page_reachable
    {| current := current pg;
       config := launch (onSubmit (current pg)) (store (config pg))
                        (pending (config pg)) (output (config pg)) |}.
Proof.
  intros Hreach Hclick. apply (page_then _ _ Hreach).
  exact (page_click pg Hclick).
Qed.

Lemma then_effect {D : Display} (pg : Page) (r' : Render) :
  page_reachable pg ->
  deps_changed (current pg) r' = true ->
  page_reachable
    {| current := r';
       config := launch (fetchTokenBalance r') (store (config pg))
                        (pending (config pg)) (output (config pg)) |}.
Proof.
  intros Hreach Hdeps.
  pose proof (page_then _ _ Hreach (page_rerender pg r')) as H.
  rewrite Hdeps in H. exact H.
Qed.

Lemma clickable_funded {D : Display} (r : Render) (s : Store)
      (wallet text : string) (tb : TokenBalance) (x : number) :
  connected r = true ->
  walletChild r = inr wallet ->
  tokenBalance s = Some tb ->
  tb_amount tb = Some x ->
  toLocaleString x (or_number (tb_decimals tb) six) = inr text ->
  error s = None ->
  loading s = false ->
  hasBalance r s = true ->
  clickable r s = true /\ disabled r s = false.
Proof.
  intros Hconn Hwallet Htb Hx Htext He Hl Hb.
  assert (Hd : disabled r s = false).
  { unfold disabled. rewrite He, Hl, Hb. reflexivity. }
  split; [| exact Hd].
  unfold clickable, render, balanceChild.
  rewrite Hconn, Hwallet, Htb, Hx, Htext. cbn. rewrite Hd. reflexivity.
Qed.

(** X12: the button can be enabled, and clicked, while a submit is in
    flight.  Take a funded wallet whose page renders, and a later
    render in which the public key, the connected flag or the
    connection has changed.  Driven only by mount, by clicks on the
    enabled button and by renders that run the effect, the page
    reaches a state in which the first submit is still suspended on
    [deposit], [loading] is false again because the balance fetch run
    by the later render has finished and cleared it, and the button of
    the current render is on the page and enabled. *)
Theorem enabled_during_submit {D : Display}
        (r1 r2 : Render) (pk1 pk2 : PublicKey) (c1 c2 : Connection)
        (wallet1 wallet2 text : string)
        (accounts : list ParsedInfo) (info : ParsedInfo) (x : number) :
  submit_ready r1 = true ->
  publicKey r1 = Some pk1 ->
  connection r1 = Some c1 ->
  connected r1 = true ->
  walletChild r1 = inr wallet1 ->
  publicKey r2 = Some pk2 ->
  connection r2 = Some c2 ->
  connected r2 = true ->
  walletChild r2 = inr wallet2 ->
  deps_changed r1 r2 = true ->
  find (fun account => info_mint account =? mintAddress) accounts
  = Some info ->
  info_uiAmount info = Some x ->
  toLocaleString x (or_number (info_decimals info) six) = inr text ->
  let funded :=
    {| tokenBalance :=
         Some {| tb_mint := info_mint info;
                 tb_amount := info_uiAmount info;
                 tb_decimals := info_decimals info |};
       loading := false; error := None; isFetchingRef := false |} in
  hasBalance r1 funded = true ->
  hasBalance r2 funded = true ->
  exists pg k,
    page_reachable pg
    /\ current pg = r2
    /\ pending (config pg) = [Pend (deposit (depositRequest r1 pk1)) k]
    /\ loading (store (config pg)) = false
    /\ disabled r2 (store (config pg)) = false
    /\ clickable r2 (store (config pg)) = true.
Proof.
  intros Hready Hpk1 Hc1 Hconn1 Hw1 Hpk2 Hc2 Hconn2 Hw2 Hdeps
         Hfind Hx Htext funded Hb1 Hb2.
  (* mount: the first fetch starts *)
  assert (G1 : fetch_guard r1 (isFetchingRef initialStore) = false).
  { unfold fetch_guard. rewrite Hpk1, Hc1, Hconn1. reflexivity. }
  destruct (launch_fetch_started r1 initialStore [] [] G1)
    as (c0 & owner0 & E0).
  pose proof (page_mount r1) as R0. rewrite E0 in R0.
  (* the first fetch finds the account *)
  pose proof (then_settle _ [] [] _
                (getParsedTokenAccountsByOwner c0 owner0 TOKEN_PROGRAM_ID)
                fetch_resumed (Resolved accounts) R0 eq_refl) as R1.
  cbn [current config store pending output app] in R1.
  unfold launch in R1. rewrite (resumed_match accounts info _ Hfind) in R1.
  cbn [fetching error initialStore] in R1.
  fold funded in R1.
  (* the user clicks the enabled button *)
  destruct (clickable_funded r1 funded wallet1 text _ x Hconn1 Hw1
                             eq_refl Hx Htext eq_refl eq_refl Hb1)
    as [Hclick1 _].
  pose proof (then_click _ R1 Hclick1) as R2.
  cbn [current config store pending output] in R2.
  match type of R2 with
  | page_reachable {| current := _;
                      config := launch _ _ ?waiting ?out |} =>
      destruct (launch_submit_ready r1 pk1 funded waiting out Hready Hpk1)
        as (k & E2)
  end.
  rewrite E2 in R2.
  (* a render with changed dependencies runs the effect *)
  pose proof (then_effect _ r2 R2 Hdeps) as R3.
  cbn [current config store pending output] in R3.
  assert (G2 : fetch_guard r2 (isFetchingRef
                                 (perform (setLoading true) funded)) = false).
  { unfold fetch_guard. rewrite Hpk2, Hc2, Hconn2. reflexivity. }
  match type of R3 with
  | page_reachable {| current := _;
                      config := launch _ _ ?waiting ?out |} =>
      destruct (launch_fetch_started
                  r2 (perform (setLoading true) funded) waiting out G2)
        as (c3 & owner3 & E3)
  end.
  rewrite E3 in R3.
  (* the second fetch finds the account while the submit waits *)
  pose proof (then_settle _ [Pend (deposit (depositRequest r1 pk1)) k] []
                _ (getParsedTokenAccountsByOwner c3 owner3 TOKEN_PROGRAM_ID)
                fetch_resumed (Resolved accounts) R3 eq_refl) as R4.
  cbn [current config store pending output app] in R4.
  unfold launch in R4. rewrite (resumed_match accounts info _ Hfind) in R4.
  cbn [fetching error perform] in R4. fold funded in R4.
  destruct (clickable_funded r2 funded wallet2 text _ x Hconn2 Hw2
                             eq_refl Hx Htext eq_refl eq_refl Hb2)
    as [Hclick2 Hd2].
  eexists. exists k. split; [exact R4 |].
  cbn [current config store pending]. repeat split; assumption.
Qed.

(** X13: a balance fetch that passes its guard and runs alone calls
    the connection exactly once and ends with [loading] false and the
    flag clear, whatever the answer; the error it leaves is null
    exactly when the call resolved with an account of the configured
    mint. *)
Theorem fetch_run_outcome (w : Oracle) (r : Render) (s : Store)
        (c : Connection) (owner : PublicKey) :
  isFetchingRef s = false ->
  publicKey r = Some owner ->
  connected r = true ->
  connection r = Some c ->
  steps_called (trace_of (run w (fetchTokenBalance r) s)) = [StepFetch]
  /\ loading (store_of (run w (fetchTokenBalance r) s)) = false
  /\ isFetchingRef (store_of (run w (fetchTokenBalance r) s)) = false
  /\ (error (store_of (run w (fetchTokenBalance r) s)) = None <->
      exists accounts info,
        w _ (getParsedTokenAccountsByOwner c owner TOKEN_PROGRAM_ID)
        = Resolved accounts
        /\ find (fun account => info_mint account =? mintAddress) accounts
           = Some info).
Proof.
  intros F Hpk Hconn Hc.
  unfold trace_of, store_of. cbn [run fetchTokenBalance].
  unfold fetch_guard. rewrite F, Hpk, Hconn, Hc. cbn [orb negb is_some].
  unfold fetch_try, await, act, storeBalance.
  cbn [run bind try_catch try_finally settled].
  destruct (w _ (getParsedTokenAccountsByOwner c owner TOKEN_PROGRAM_ID))
    as [accounts | e] eqn:W; cbn [run bind try_catch try_finally settled].
  - destruct (find (fun account => info_mint account =? mintAddress)
                   accounts) as [info |] eqn:Hfind; cbn.
    + repeat split; try reflexivity.
      intros _. exists accounts, info. split; [reflexivity | exact Hfind].
    + repeat split; try reflexivity; try discriminate.
      intros (accounts' & info & [= <-] & H). congruence.
  - cbn. repeat split; try reflexivity; try discriminate.
    intros (accounts & info & H & _). discriminate H.
Qed.

(** X14: without an [amount] parameter, or with an empty one, the
    requested amount is 0 whatever the platform makes of strings, it
    is what [deposit] is asked for, and it is affordable before any
    balance is known. *)
Theorem missing_amount (r : Render) :
  get (searchParams r) "amount" = null
  \/ get (searchParams r) "amount" = str EmptyString ->
  amount r = zero
  /\ (forall pk, deposit_amount (depositRequest r pk) = zero)
  /\ forall s, tokenBalance s = None -> hasBalance r s = true.
Proof.
  intros H.
  assert (Ha : amount r = zero).
  { unfold amount. destruct H as [-> | ->]; reflexivity. }
  split; [exact Ha |]. split; [intros pk; exact Ha |].
  intros s Hs. unfold hasBalance, balanceAmount. rewrite Ha, Hs.
  reflexivity.
Qed.

End Interleaving.

(** * The rendered page *)

Section Rendering.
Context {P : Platform} {D : Display}.

(** X15: a fetched account whose [uiAmount] is null breaks the page.
    Once a balance fetch has completed on such an account of the
    configured mint, every render with a connected wallet throws,
    although no error is stored. *)
Theorem null_amount_breaks_render
        (cfg : Config) (before after : list Pending)
        (c : Connection) (owner : PublicKey) (programId : string)
        (k : Outcome (list ParsedInfo) -> Prog unit)
        (accounts earlier later : list ParsedInfo) (info : ParsedInfo) :
  reachable cfg ->
  pending cfg
  = before ++ Pend (getParsedTokenAccountsByOwner c owner programId) k
           :: after ->
  accounts = earlier ++ info :: later ->
  (forall a, In a earlier -> info_mint a <> mintAddress) ->
  info_mint info = mintAddress ->
  info_uiAmount info = None ->
  let cfg' := launch (k (Resolved accounts)) (store cfg) (before ++ after)
                     (output cfg) in
  reachable cfg'
  /\ error (store cfg') = None
  /\ forall r, connected r = true -> exists e, render r (store cfg') = inl e.
Proof.
  intros Hreach Hpend Hacc Hearlier Hinfo Hnull cfg'.
  assert (R' : reachable cfg').
  { apply (reach_step cfg); [exact Hreach |].
    subst cfg'. eapply step_settle. exact Hpend. }
  split; [exact R' |].
  destruct (reachable_Inv cfg Hreach) as [Hp Hf _ Hc].
  unfold fetches_in_flight in Hf.
  rewrite Hpend in Hp, Hf. rewrite in_flight_split in Hf. cbn in Hf.
  apply Forall_app in Hp. destruct Hp as [_ Hp].
  inversion Hp as [| ? ? Hk _]; subst. cbn in Hk. subst k.
  assert (F : isFetchingRef (store cfg) = true).
  { destruct (isFetchingRef (store cfg)); [reflexivity | lia]. }
  subst cfg'. unfold launch.
  rewrite (resumed_match _ info _
             (find_first _ earlier later info eq_refl Hearlier Hinfo)).
  cbn. split; [exact (Hc F) |].
  intros r Hconn. unfold render. rewrite Hconn. cbn [negb].
  destruct (walletChild r) as [e | wallet]; [exists e; reflexivity |].
  unfold balanceChild. cbn. rewrite Hnull.
  exists null_property_error. reflexivity.
Qed.

(** X16: the form is rendered only for a connected wallet and the
    prompt only for a disconnected one; the connect box inside the
    form is never shown. *)
Theorem form_only_when_connected (r : Render) (s : Store) (v : View) :
  render r s = inr v ->
  match v with
  | ConnectPrompt _ => connected r = false
  | Form f => connected r = true /\ form_connect_box f = false
  end.
Proof.
  unfold render. destruct (connected r); cbn.
  - destruct (walletChild r); [discriminate |].
    destruct (balanceChild s); [discriminate |].
    intros [= <-]. split; reflexivity.
  - intros [= <-]. reflexivity.
Qed.

(** X17: on the rendered form the button is enabled exactly when it
    reads Send and no error box is shown; a button that reads Loading
    or Insufficient Balance is always disabled. *)
Theorem enabled_button (r : Render) (s : Store) (f : TipForm) :
  render r s = inr (Form f) ->
  form_disabled f = false <->
  (exists text, form_label f = LabelSend text) /\ form_error f = None.
Proof.
  unfold render. destruct (negb (connected r)); [discriminate |].
  destruct (walletChild r); [discriminate |].
  destruct (balanceChild s); [discriminate |].
  intros [= <-]. cbn. unfold disabled, buttonLabel, errorChild.
  rewrite negb_involutive.
  destruct (error s) as [e |]; cbn.
  - destruct (e =? EmptyString); cbn;
      destruct (loading s), (hasBalance r s); cbn; split;
        try discriminate; try (intros [[t H] H']; discriminate);
        intros _; split; [eexists; reflexivity | reflexivity].
  - destruct (loading s), (hasBalance r s); cbn; split;
      try discriminate; try (intros [[t H] H']; discriminate);
      intros _; split; [eexists; reflexivity | reflexivity].
Qed.

End Rendering.
(** * The statements on the worked instance *)

Import Demo.
#[local] Existing Instance platform.

Lemma reachable_started : reachable started.
Proof.
  apply (reach_step initialConfig);
    [apply reach_init | exact (step_fetch (page "5") initialConfig)].
Qed.

Lemma reachable_submitting : reachable submitting.
Proof.
  apply (reach_step initialConfig);
    [apply reach_init | exact (step_submit (page "5") initialConfig)].
Qed.

(** C1, the claim as stated, fails: two tips in which every step
    succeeds and [execute] answers differently hand the very same
    request to [depositInDatabase]; the step after [execute] takes
    nothing from its result. *)
Lemma database_ignores_execute :
  existsb is_rejection (trace_of (tipped "hash-1")) = false
  /\ existsb is_rejection (trace_of (tipped "hash-2")) = false
  /\ execute_results (trace_of (tipped "hash-1")) = [{| txHash := "hash-1" |}]
  /\ execute_results (trace_of (tipped "hash-2")) = [{| txHash := "hash-2" |}]
  /\ database_requests (trace_of (tipped "hash-1"))
     = database_requests (trace_of (tipped "hash-2"))
  /\ database_requests (trace_of (tipped "hash-1"))
     = [{| db_amount := decimalToNumber "5"; db_vaultId := "vault-7";
           discordUserId := str "42" |}].
Proof. repeat split; reflexivity. Qed.

Lemma onSubmit_success_witness :
  submit_ready (page "5") = true
  /\ filter is_notification (trace_of (tipped "5Gx"))
     = [EvDo (toast {| toast_title := "Transaction Confirmed";
                       toast_text := "Successfully tipped @alice";
                       toast_href := "https://solscan.io/tx/5Gx";
                       toast_link := "View transaction";
                       toast_duration := 10000 |})].
Proof.
  split; [reflexivity |].
  exact (proj2 (onSubmit_success
                  (backend "5Gx") (page "5") funded payerKey depositRes
                  "AQAB" "AQAB.signed" "AQAB.signed" {| txHash := "5Gx" |}
                  eq_refl eq_refl eq_refl eq_refl eq_refl eq_refl eq_refl
                  eq_refl)).
Defined.

Lemma onSubmit_failure_witness :
  existsb is_rejection
          (trace_of (run backend_execute_down (onSubmit (page "5")) funded))
  = true
  /\ filter is_notification
            (trace_of (run backend_execute_down (onSubmit (page "5")) funded))
     = [EvDo (toast_error submit_failed)]
  /\ loading (store_of (run backend_execute_down (onSubmit (page "5")) funded))
     = false.
Proof.
  split; [reflexivity |].
  exact (proj2 (onSubmit_failure backend_execute_down (page "5") funded
                                 eq_refl eq_refl)).
Defined.

(** C3, the claim as stated, fails: the amount "abc" parses to NaN, which
    is not less than or equal to the balance 10, and [hasBalance()]
    answers true. *)
Lemma hasBalance_nan_amount :
  ~ (hasBalance (page "abc") funded = true
     <-> js_le (amount (page "abc")) (fetchedBalance funded) = true).
Proof. intros [H _]. specialize (H eq_refl). discriminate H. Qed.

Lemma disabled_iff_witness :
  reachable started
  /\ (disabled (page "5") (store started) = true <->
      error (store started) <> None \/ loading (store started) = true
      \/ hasBalance (page "5") (store started) = false).
Proof.
  split; [exact reachable_started |].
  exact (disabled_iff started (page "5") reachable_started).
Defined.

Lemma onSubmit_precondition_witness :
  submit_ready page_no_wallet = false
  /\ exists msg,
       run (backend "5Gx") (onSubmit page_no_wallet) funded
       = (funded, [EvDo (console_log msg)], inr tt).
Proof.
  split; [reflexivity |].
  destruct (onSubmit_precondition page_no_wallet (or_intror (or_introl eq_refl)))
    as (msg & _ & H).
  exists msg. exact (proj2 (H funded) (backend "5Gx")).
Defined.

Lemma single_fetch_witness :
  reachable started
  /\ fetches_in_flight started = 1
  /\ launch (fetchTokenBalance (page "5"))
            (store started) (pending started) (output started) = started.
Proof.
  split; [exact reachable_started |].
  destruct (single_fetch started reachable_started)
    as (_ & H2 & H3 & _ & _).
  split.
  - apply H2. reflexivity.
  - apply (H3 (page "5")). left. reflexivity.
Defined.

Lemma fetch_no_match_witness :
  reachable started
  /\ error (store (launch (fetch_resumed (Resolved [otherAccount]))
                          (store started) [] (output started)))
     = Some "Required token not found in wallet."
  /\ disabled (page "5")
              (store (launch (fetch_resumed (Resolved [otherAccount]))
                             (store started) [] (output started)))
     = true
  /\ exists f,
      render (D := DemoPage.display) (page "5")
             (store (launch (fetch_resumed (Resolved [otherAccount]))
                            (store started) [] (output started)))
      = inr (Form f)
      /\ form_error f = Some "Required token not found in wallet."
      /\ form_disabled f = true.
Proof.
  split; [exact reachable_started |].
  assert (Hother : forall a, In a [otherAccount] -> info_mint a <> mintAddress).
  { intros a [<- | []]. discriminate. }
  destruct (fetch_no_match (D := DemoPage.display)
                           started [] [] rpc payerKey TOKEN_PROGRAM_ID
                           fetch_resumed [otherAccount]
                           reachable_started eq_refl Hother)
    as (_ & He & _ & Hd & _ & Hr).
  split; [exact He |]. split; [exact (Hd (page "5")) |].
  destruct (Hr (page "5") "paye..." eq_refl eq_refl)
    as (f & H1 & H2 & _ & H4).
  exists f. split; [exact H1 |]. split; [exact H2 | exact H4].
Defined.

Lemma fetch_match_witness :
  reachable started
  /\ tokenBalance
       (store (launch (fetch_resumed (Resolved [otherAccount; usdcAccount]))
                      (store started) [] (output started)))
     = Some {| tb_mint := USDC; tb_amount := Some ten;
               tb_decimals := decimalToNumber "6" |}.
Proof.
  split; [exact reachable_started |].
  assert (Hother : forall a, In a [otherAccount] -> info_mint a <> mintAddress).
  { intros a [<- | []]. discriminate. }
  exact (proj1 (fetch_match started [] [] rpc payerKey TOKEN_PROGRAM_ID
                            fetch_resumed [otherAccount; usdcAccount]
                            [otherAccount] [] usdcAccount
                            reachable_started eq_refl eq_refl Hother
                            eq_refl)).
Defined.

Lemma onSubmit_reentrant_witness :
  submit_ready (page "5") = true
  /\ loading (store submitting) = true
  /\ List.length (pending submitting) = 1
  /\ List.length
       (pending (launch (onSubmit (page "5")) (store submitting)
                        (pending submitting) (output submitting))) = 2
  /\ steps_called
       (trace_of (run (backend "5Gx") (onSubmit (page "5"))
                      (store submitting)))
     = [StepDeposit; StepSign; StepExecute; StepRecord].
Proof.
  split; [reflexivity |]. split; [reflexivity |]. split; [reflexivity |].
  destruct (onSubmit_reentrant (page "5") payerKey eq_refl eq_refl)
    as (_ & _ & H & H4).
  split.
  - destruct (H submitting) as (k & -> & _). reflexivity.
  - exact (H4 (backend "5Gx") (store submitting) depositRes
              "AQAB" "AQAB.signed" "AQAB.signed" {| txHash := "5Gx" |}
              eq_refl eq_refl eq_refl eq_refl eq_refl eq_refl).
Defined.

Lemma nan_amount_witness :
  amount (page "abc") = NaN
  /\ hasBalance (page "abc") funded = true
  /\ amounts_sent (trace_of (run (backend "5Gx") (onSubmit (page "abc")) funded))
     = [NaN; NaN; NaN].
Proof.
  assert (Hnan : amount (page "abc") = NaN) by reflexivity.
  split; [exact Hnan |].
  destruct (nan_amount (page "abc") Hnan) as (H1 & _ & _ & _ & H5).
  split; [exact (H1 funded) |].
  exact (H5 (backend "5Gx") funded payerKey depositRes
            "AQAB" "AQAB.signed" "AQAB.signed" {| txHash := "5Gx" |}
            eq_refl eq_refl eq_refl eq_refl eq_refl eq_refl eq_refl
            eq_refl).
Defined.

(** * The further statements on the worked instance *)

Import DemoPage.
#[local] Existing Instance display.

Lemma reachable_loaded : reachable loaded.
Proof.
  apply (reach_step started); [exact reachable_started |].
  exact (step_settle started [] [] _
           (getParsedTokenAccountsByOwner rpc payerKey TOKEN_PROGRAM_ID)
           fetch_resumed (Resolved [otherAccount; usdcAccount]) eq_refl).
Qed.

Lemma reachable_missing : reachable missing.
Proof.
  apply (reach_step started); [exact reachable_started |].
  exact (step_settle started [] [] _
           (getParsedTokenAccountsByOwner rpc payerKey TOKEN_PROGRAM_ID)
           fetch_resumed (Resolved [otherAccount]) eq_refl).
Qed.

Lemma stored_mint_witness :
  reachable loaded
  /\ tb_mint {| tb_mint := USDC; tb_amount := Some ten;
                tb_decimals := decimalToNumber "6" |} = mintAddress.
Proof.
  split; [exact reachable_loaded |].
  exact (stored_mint loaded _ reachable_loaded eq_refl).
Defined.

Lemma not_found_no_balance_witness :
  reachable missing
  /\ error (store missing) = Some token_not_found
  /\ tokenBalance (store missing) = None.
Proof.
  split; [exact reachable_missing |]. split; [reflexivity |].
  exact (proj1 (not_found_no_balance missing reachable_missing eq_refl)).
Defined.

Lemma idle_not_loading_witness :
  reachable loaded /\ pending loaded = []
  /\ loading (store loaded) = false.
Proof.
  split; [exact reachable_loaded |]. split; [reflexivity |].
  exact (proj1 (idle_not_loading loaded reachable_loaded eq_refl)).
Defined.

Lemma fetching_no_error_witness :
  reachable started /\ isFetchingRef (store started) = true
  /\ error (store started) = None.
Proof.
  split; [exact reachable_started |]. split; [reflexivity |].
  exact (fetching_no_error started reachable_started eq_refl).
Defined.

Lemma fetch_rejected_witness :
  reachable started
  /\ error (store (launch (fetch_resumed (Rejected "rpc down"))
                          (store started) [] (output started)))
     = Some "Error fetching token balance"
  /\ disabled (page "5")
              (store (launch (fetch_resumed (Rejected "rpc down"))
                             (store started) [] (output started)))
     = true.
Proof.
  split; [exact reachable_started |].
  destruct (fetch_rejected started [] [] rpc payerKey TOKEN_PROGRAM_ID
                           fetch_resumed "rpc down"
                           reachable_started eq_refl)
    as (_ & He & _ & Hd & _).
  split; [exact He | exact (Hd (page "5"))].
Defined.

Lemma onSubmit_one_notification_witness :
  submit_ready (page "5") = true
  /\ loading (store_of (run backend_empty_transaction
                            (onSubmit (page "5")) funded)) = false
  /\ exists n,
      filter is_notification
             (trace_of (run backend_empty_transaction
                            (onSubmit (page "5")) funded)) = [n].
Proof.
  split; [reflexivity |].
  destruct (onSubmit_one_notification backend_empty_transaction (page "5")
                                      funded eq_refl) as (H1 & H2 & _).
  split; [exact H1 | exact H2].
Defined.

Lemma success_iff_all_steps_witness :
  submit_ready (page "5") = true
  /\ steps_called (trace_of (tipped "5Gx"))
     = [StepDeposit; StepSign; StepExecute; StepRecord].
Proof.
  split; [reflexivity |].
  exact (proj1 (proj1 (success_iff_all_steps (backend "5Gx") (page "5")
                                             funded eq_refl) eq_refl)).
Defined.

Lemma undecodable_transaction_witness :
  steps_called
    (trace_of (run backend_empty_transaction (onSubmit (page "5")) funded))
  = [StepDeposit].
Proof.
  rewrite (undecodable_transaction
             backend_empty_transaction (page "5") funded payerKey
             {| serializedTransaction := EmptyString;
                vaultId := "vault-7"; transactionId := "tx-1" |}
             "invalid transaction" eq_refl eq_refl eq_refl eq_refl).
  reflexivity.
Defined.

Lemma unserializable_transaction_witness :
  steps_called
    (trace_of (run idle_wallet (onSubmit (P := checking) (page "5")) funded))
  = [StepDeposit; StepSign].
Proof.
  rewrite (unserializable_transaction
             (P := checking) idle_wallet (page "5") funded payerKey
             depositRes "AQAB" "AQAB" "Signature verification failed"
             eq_refl eq_refl eq_refl eq_refl eq_refl eq_refl).
  reflexivity.
Defined.

Lemma enabled_during_submit_witness :
  submit_ready (page "5") = true
  /\ deps_changed (page "5") page_switched = true
  /\ exists pg k,
      page_reachable pg
      /\ current pg = page_switched
      /\ pending (config pg)
         = [Pend (deposit (depositRequest (page "5") payerKey)) k]
      /\ clickable page_switched (store (config pg)) = true.
Proof.
  split; [reflexivity |]. split; [reflexivity |].
  assert (Hfind : find (fun account => info_mint account =? mintAddress)
                       [otherAccount; usdcAccount] = Some usdcAccount)
    by reflexivity.
  assert (Hw1 : walletChild (page "5") = inr "paye...") by reflexivity.
  assert (Hw2 : walletChild page_switched = inr "othe...") by reflexivity.
  assert (Htext : toLocaleString ten (or_number (info_decimals usdcAccount) six)
                  = inr "10") by reflexivity.
  assert (Hb1 : hasBalance (page "5") funded = true) by reflexivity.
  assert (Hb2 : hasBalance page_switched funded = true) by reflexivity.
  destruct (enabled_during_submit
              (page "5") page_switched payerKey otherKey rpc rpc
              "paye..." "othe..." "10" [otherAccount; usdcAccount]
              usdcAccount ten
              eq_refl eq_refl eq_refl eq_refl Hw1
              eq_refl eq_refl eq_refl Hw2 eq_refl
              Hfind eq_refl Htext Hb1 Hb2)
    as (pg & k & H1 & H2 & H3 & _ & _ & H6).
  exists pg, k. repeat split; assumption.
Defined.

Lemma fetch_run_outcome_witness :
  isFetchingRef initialStore = false
  /\ steps_called
       (trace_of (run (backend "h") (fetchTokenBalance (page "5"))
                      initialStore)) = [StepFetch]
  /\ loading
       (store_of (run (backend "h") (fetchTokenBalance (page "5"))
                      initialStore)) = false.
Proof.
  split; [reflexivity |].
  destruct (fetch_run_outcome (backend "h") (page "5") initialStore
                              rpc payerKey eq_refl eq_refl eq_refl eq_refl)
    as (H1 & H2 & _).
  split; [exact H1 | exact H2].
Defined.

Lemma missing_amount_witness :
  get (searchParams page_no_amount) "amount" = null
  /\ amount page_no_amount = zero
  /\ hasBalance page_no_amount initialStore = true.
Proof.
  split; [reflexivity |].
  destruct (missing_amount page_no_amount (or_introl eq_refl))
    as (H1 & _ & H3).
  split; [exact H1 | exact (H3 initialStore eq_refl)].
Defined.

Lemma null_amount_breaks_render_witness :
  reachable started
  /\ exists e,
      render (page "5")
             (store (launch (fetch_resumed (Resolved [otherAccount; nullAccount]))
                            (store started) [] (output started)))
      = inl e.
Proof.
  split; [exact reachable_started |].
  assert (Hother : forall a, In a [otherAccount] -> info_mint a <> mintAddress).
  { intros a [<- | []]. discriminate. }
  destruct (null_amount_breaks_render
              started [] [] rpc payerKey TOKEN_PROGRAM_ID fetch_resumed
              [otherAccount; nullAccount] [otherAccount] [] nullAccount
              reachable_started eq_refl eq_refl Hother eq_refl eq_refl)
    as (_ & _ & H).
  exact (H (page "5") eq_refl).
Defined.

Lemma form_only_when_connected_witness :
  render (page "5") funded = inr (Form fundedForm)
  /\ connected (page "5") = true
  /\ form_connect_box fundedForm = false.
Proof.
  assert (H : render (page "5") funded = inr (Form fundedForm))
    by reflexivity.
  split; [exact H |].
  exact (form_only_when_connected (page "5") funded (Form fundedForm) H).
Defined.

Lemma enabled_button_witness :
  render (page "5") funded = inr (Form fundedForm)
  /\ (form_disabled fundedForm = false <->
      (exists text, form_label fundedForm = LabelSend text)
      /\ form_error fundedForm = None).
Proof.
  assert (H : render (page "5") funded = inr (Form fundedForm))
    by reflexivity.
  split; [exact H |].
  exact (enabled_button (page "5") funded fundedForm H).
Defined.
